(** * Appointment dialogue manager ([Code/src/types.ts])

    A shallow embedding of the XState machine [dmMachine]: the grammar
    table and its resolver functions, the machine context, the state
    table with its guards, assignments, entry and exit actions, and the
    interpreter that runs one event through the table. *)

From stdpp Require Import base option list strings gmap.
From Stdlib Require Import QArith.

Local Open Scope string_scope.
Local Open Scope list_scope.

(** ** JavaScript values met by the guards

    Context fields have the TypeScript types [string | null] and
    [boolean | null]; the resolver functions return [string | undefined]
    and [boolean | undefined].  The guards compare them with [!= null],
    [!== undefined], [=== true] and coerce them with [!!] or a
    conditional, so the comparisons are written once over a small value
    type and the typed fields are injected into it. *)

Inductive JSValue : Type :=
| undefined
| null
| JSBool (b : bool)
| JSString (s : string).

(** [T | null]: [None] is [null]. *)
Definition str_or_null (x : option string) : JSValue :=
  match x with Some s => JSString s | None => null end.

Definition bool_or_null (x : option bool) : JSValue :=
  match x with Some b => JSBool b | None => null end.

(** [T | undefined]: [None] is [undefined]. *)
Definition str_or_undefined (x : option string) : JSValue :=
  match x with Some s => JSString s | None => undefined end.

Definition bool_or_undefined (x : option bool) : JSValue :=
  match x with Some b => JSBool b | None => undefined end.

(** [!!v], and the test of a conditional [v ? _ : _]. *)
Definition ToBoolean (v : JSValue) : bool :=
  match v with
  | undefined | null => false
  | JSBool b => b
  | JSString s => negb (String.eqb s "")
  end.

(** [v != null]: loose inequality, [undefined] and [null] are the only
    values loosely equal to [null]. *)
Definition loose_neq_null (v : JSValue) : bool :=
  match v with
  | undefined | null => false
  | JSBool _ | JSString _ => true
  end.

(** [v !== undefined]. *)
Definition strict_neq_undefined (v : JSValue) : bool :=
  match v with
  | undefined => false
  | null | JSBool _ | JSString _ => true
  end.

(** [v === b] for a boolean literal [b]. *)
Definition strict_eq_bool (v : JSValue) (b : bool) : bool :=
  match v with
  | JSBool b' => Bool.eqb b' b
  | undefined | null | JSString _ => false
  end.

(** ** Vocabulary: the grammar table and its resolvers *)

Module Vocabulary.

(** [interface GrammarEntry]: four optional properties; [None] is a
    property that the entry does not have. *)
Record GrammarEntry : Type := {
  person : option string;
  day : option string;
  time : option string;
  yesno : option bool
}.

Definition empty_entry : GrammarEntry :=
  {| person := None; day := None; time := None; yesno := None |}.

Definition person_entry (p : string) : GrammarEntry :=
  {| person := Some p; day := None; time := None; yesno := None |}.

Definition day_entry (d : string) : GrammarEntry :=
  {| person := None; day := Some d; time := None; yesno := None |}.

Definition time_entry (t : string) : GrammarEntry :=
  {| person := None; day := None; time := Some t; yesno := None |}.

Definition yesno_entry (b : bool) : GrammarEntry :=
  {| person := None; day := None; time := None; yesno := Some b |}.

(** [const grammar]: the own properties of the object literal. *)
Definition grammar : gmap string GrammarEntry :=
  list_to_map [
    ("vlad", person_entry "Vladislav Maraev");
    ("aya", person_entry "Nayat Astaiza Soriano");
    ("victoria", person_entry "Victoria Daniilidou");
    ("matteo", person_entry "Matteo Ripamonti");
    ("lou", person_entry "Lou Reed");
    ("david", person_entry "David Bowie");
    ("monday", day_entry "Monday");
    ("tuesday", day_entry "Tuesday");
    ("wednesday", day_entry "Wednesday");
    ("thursday", day_entry "Thursday");
    ("friday", day_entry "Friday");
    ("saturday", day_entry "Saturday");
    ("sunday", day_entry "Sunday");
    ("8", time_entry "8:00");
    ("9", time_entry "9:00");
    ("10", time_entry "10:00");
    ("11", time_entry "11:00");
    ("12", time_entry "12:00");
    ("13", time_entry "13:00");
    ("14", time_entry "14:00");
    ("15", time_entry "15:00");
    ("16", time_entry "16:00");
    ("17", time_entry "17:00");
    ("18", time_entry "18:00");
    ("19", time_entry "19:00");
    ("20", time_entry "20:00");
    ("yes", yesno_entry true);
    ("yep", yesno_entry true);
    ("of course", yesno_entry true);
    ("sure", yesno_entry true);
    ("no", yesno_entry false);
    ("nope", yesno_entry false);
    ("no way", yesno_entry false);
    ("never", yesno_entry false)
  ].

(** The literal inherits from [Object.prototype]; the [in] operator and
    a property read both walk the prototype chain, so these names are
    found as well.  None of the inherited members has a [person],
    [day], [time] or [yesno] property. *)
Definition Object_prototype_keys : list string := [
  "constructor"; "hasOwnProperty"; "isPrototypeOf";
  "propertyIsEnumerable"; "toLocaleString"; "toString"; "valueOf";
  "__defineGetter__"; "__defineSetter__"; "__lookupGetter__";
  "__lookupSetter__"; "__proto__"
].

(** [String.prototype.toLowerCase] on one character.  A character is a
    code point below 256 (Latin-1); there the upper-case letters are
    A-Z and U+00C0-U+00DE without the multiplication sign U+00D7, each
    32 below its lower-case form. *)
Definition lower_char (a : Ascii.ascii) : Ascii.ascii :=
  let n := Ascii.N_of_ascii a in
  if ((65 <=? n) && (n <=? 90)
      || (192 <=? n) && (n <=? 222) && negb (n =? 215))%N
  then Ascii.ascii_of_N (n + 32)
  else a.

Fixpoint toLowerCase (s : string) : string :=
  match s with
  | EmptyString => EmptyString
  | String a s' => String (lower_char a) (toLowerCase s')
  end.

(** [key in grammar]. *)
Definition has_property (key : string) : bool :=
  bool_decide (is_Some (grammar !! key))
  || bool_decide (key ∈ Object_prototype_keys).

(** [grammar[key] || {}]: an own entry, or an object without any of
    the four properties (the empty literal, or an inherited member). *)
Definition entry_or_empty (key : string) : GrammarEntry :=
  default empty_entry (grammar !! key).

Definition isInGrammar (utterance : string) : bool :=
  has_property (toLowerCase utterance).

Definition getPerson (utterance : string) : option string :=
  person (entry_or_empty (toLowerCase utterance)).

Definition getNumber (utterance : string) : option string :=
  day (entry_or_empty (toLowerCase utterance)).

Definition getFullDay (utterance : string) : option bool :=
  yesno (entry_or_empty (toLowerCase utterance)).

Definition getTime (utterance : string) : option string :=
  time (entry_or_empty (toLowerCase utterance)).

Definition getConfirm (utterance : string) : option bool :=
  yesno (entry_or_empty (toLowerCase utterance)).

End Vocabulary.

(** ** Events, directives and the machine context *)

(** The type [Hypothesis] of speechstate (the name is a reserved word
    here): the machine reads [utterance] only; the confidence score is
    carried along and never inspected. *)
Record ASRHypothesis : Type := {
  utterance : string;
  confidence : Q
}.

(** [DMEvents]: the events with a handler somewhere in the machine, and
    every other event type of [SpeechStateExternalEvent] under
    [OtherEvent]. *)
Inductive DMEvents : Type :=
| ASRTTS_READY
| SPEAK_COMPLETE
| RECOGNISED (value : list ASRHypothesis)
| LISTEN_COMPLETE
| ASR_NOINPUT
| CLICK
| OtherEvent (type : string).

(** What the actions send to [context.spstRef]. *)
Inductive Directive : Type :=
| PREPARE
| SPEAK (utterance : string)
| LISTEN.

(** [interface DMContext], without [spstRef]: the reference to the speech
    actor is set once when the machine is created and no [assign]
    touches it; what is sent to it is the [Directive] list of a step. *)
Record DMContext : Type := {
  lastResult : option (list ASRHypothesis);
  person : option string;
  day : option string;
  yesno : option bool;
  time : option string
}.

(** The context of [createMachine]. *)
Definition initial_context : DMContext :=
  {| lastResult := None; person := None; day := None;
     yesno := None; time := None |}.

(** [assign] with a partial object, one field at a time. *)
Definition assign_lastResult (v : option (list ASRHypothesis)) (c : DMContext) : DMContext :=
  {| lastResult := v; person := person c; day := day c;
     yesno := yesno c; time := time c |}.

Definition assign_person (v : option string) (c : DMContext) : DMContext :=
  {| lastResult := lastResult c; person := v; day := day c;
     yesno := yesno c; time := time c |}.

Definition assign_day (v : option string) (c : DMContext) : DMContext :=
  {| lastResult := lastResult c; person := person c; day := v;
     yesno := yesno c; time := time c |}.

Definition assign_yesno (v : option bool) (c : DMContext) : DMContext :=
  {| lastResult := lastResult c; person := person c; day := day c;
     yesno := v; time := time c |}.

Definition assign_time (v : option string) (c : DMContext) : DMContext :=
  {| lastResult := lastResult c; person := person c; day := day c;
     yesno := yesno c; time := v |}.

(** The action [clearValues]. *)
Definition clearValues (c : DMContext) : DMContext :=
  {| lastResult := None; person := None; day := None;
     time := None; yesno := None |}.

(** ** Exceptions

    Reading a property of [null] or [undefined] throws a [TypeError];
    XState then puts the actor in its error status and the event has no
    effect that the machine can continue from. *)
Inductive result (A : Type) : Type :=
| Ok (a : A)
| TypeError.
Arguments Ok {A} a.
Arguments TypeError {A}.

#[global] Instance result_ret : MRet result := fun A a => Ok a.

#[global] Instance result_bind : MBind result := fun A B k r =>
  match r with
  | Ok a => k a
  | TypeError => TypeError
  end.

(** [value[0].utterance] for [value : Hypothesis[]]. *)
Definition first_utterance (value : list ASRHypothesis) : result string :=
  match value with
  | h :: _ => Ok (utterance h)
  | [] => TypeError
  end.

(** [context.lastResult![0].utterance]: the non-null assertion is erased
    by the compiler, so a [null] is read as it is. *)
Definition lastResult_utterance (c : DMContext) : result string :=
  match lastResult c with
  | Some value => first_utterance value
  | None => TypeError
  end.

(** A [null] or a string inside a template literal. *)
Definition template (x : option string) : string :=
  match x with Some s => s | None => "null" end.

(** ** The state table of [dmMachine] *)

Inductive State : Type :=
| Prepare
| WaitToStart
| Greeting
| AskPerson
| ListenPerson
| CheckPerson
| AskDay
| ListenDay
| CheckDay
| AskFullDay
| ListenFullDay
| CheckFullDay
| AskTime
| ListenTime
| CheckTime
| ConfirmAppointment
| ListenConfirm
| CheckConfirmation
| Done
| NewState1.

#[global] Instance State_eq_dec : EqDecision State.
Proof. solve_decision. Defined.

(** One candidate of an [on] entry: a guard, the assignment made when it
    is taken, and the target ([None]: the machine stays in its state and
    neither exit nor entry actions run). *)
Record Transition : Type := {
  guard : DMContext -> result bool;
  actions : DMContext -> result DMContext;
  target : option State
}.

Definition goto (s : State) : Transition :=
  {| guard := fun _ => Ok true; actions := Ok; target := Some s |}.

Definition goto_if (g : DMContext -> result bool) (s : State) : Transition :=
  {| guard := g; actions := Ok; target := Some s |}.

Definition assign (a : DMContext -> result DMContext) : Transition :=
  {| guard := fun _ => Ok true; actions := a; target := None |}.

Definition assign_goto (a : DMContext -> result DMContext) (s : State) : Transition :=
  {| guard := fun _ => Ok true; actions := a; target := Some s |}.

Import Vocabulary (getPerson, getNumber, getFullDay, getTime, getConfirm).

(** The [entry] action of each state: what it sends to the speech actor. *)
Definition entry (s : State) (c : DMContext) : result (list Directive) :=
  match s with
  | Prepare => Ok [PREPARE]
  | WaitToStart => Ok []
  | Greeting => Ok [SPEAK "Hi, let's create an appointment"]
  | AskPerson => Ok [SPEAK "Who are you meeting with?"]
  | ListenPerson => Ok [LISTEN]
  | CheckPerson =>
      Ok [SPEAK (if loose_neq_null (str_or_null (person c))
                 then "You will meet " +:+ template (person c) +:+ "."
                 else "I didn't understand the person's name.")]
  | AskDay => Ok [SPEAK "Which day do you want the meeting?"]
  | ListenDay => Ok [LISTEN]
  | CheckDay =>
      Ok [SPEAK (if ToBoolean (str_or_null (day c))
                 then "The day will be " +:+ template (day c) +:+ "."
                 else "I did't understand the day")]
  | AskFullDay => Ok [SPEAK "Will it take the whole day?"]
  | ListenFullDay => Ok [LISTEN]
  | CheckFullDay =>
      Ok [SPEAK (if strict_eq_bool (bool_or_null (yesno c)) true
                 then "Ok, you will take the whole day."
                 else "Ok, the meeting will not be the whole day.")]
  | AskTime => Ok [SPEAK "What time is your meeting?"]
  | ListenTime => Ok [LISTEN]
  | CheckTime =>
      Ok [SPEAK (if loose_neq_null (str_or_null (time c))
                 then "You will meet at " +:+ template (time c) +:+ "."
                 else "I did not understand the time.")]
  | ConfirmAppointment =>
      let UttConfirm :=
        "Do you want me to create an appointment with "
          +:+ template (person c) +:+ " " in
      let UttConfirm := UttConfirm +:+ "on " +:+ template (day c) +:+ " " in
      Ok [SPEAK (if strict_eq_bool (bool_or_null (yesno c)) true
                 then UttConfirm +:+ "for the whole day?"
                 else UttConfirm +:+ "at " +:+ template (time c) +:+ "?")]
  | ListenConfirm => Ok [LISTEN]
  | CheckConfirmation =>
      u ← lastResult_utterance c;
      let confirmation := getConfirm u in
      Ok [SPEAK (if strict_eq_bool (bool_or_undefined confirmation) true
                 then "Your appointment has been created!"
                 else if strict_eq_bool (bool_or_undefined confirmation) false
                 then "Okay, let's start over."
                 else "I didn't understand. Let's start over.")]
  | Done => Ok []
  | NewState1 => Ok []
  end.

(** The [exit] action of each state; only [CheckConfirmation] has one. *)
Definition exit (s : State) (c : DMContext) : DMContext :=
  match s with
  | CheckConfirmation => clearValues c
  | _ => c
  end.

(** The [on] entry of state [s] for event [e], candidates in the order
    of the source; the empty list when the state has no handler. *)
Definition on (s : State) (e : DMEvents) : list Transition :=
  match s, e with
  | Prepare, ASRTTS_READY => [goto WaitToStart]
  | WaitToStart, CLICK => [goto Greeting]
  | Greeting, SPEAK_COMPLETE => [goto AskPerson]
  | AskPerson, SPEAK_COMPLETE => [goto ListenPerson]

  | ListenPerson, RECOGNISED value =>
      [assign (fun c =>
         u ← first_utterance value;
         let person := getPerson u in
         Ok (if ToBoolean (str_or_undefined person)
             then assign_person person (assign_lastResult (Some value) c)
             else assign_lastResult (Some value) c))]
  | ListenPerson, LISTEN_COMPLETE =>
      [goto_if (fun c => Ok (loose_neq_null (str_or_null (person c)))) CheckPerson;
       goto AskPerson]
  | ListenPerson, ASR_NOINPUT =>
      [assign (fun c => Ok (assign_lastResult None c))]

  | CheckPerson, SPEAK_COMPLETE =>
      [goto_if (fun c => Ok (loose_neq_null (str_or_null (person c)))) AskDay;
       goto AskPerson]

  | AskDay, SPEAK_COMPLETE => [goto ListenDay]

  | ListenDay, RECOGNISED value =>
      [assign (fun c =>
         u ← first_utterance value;
         let day := getNumber u in
         Ok (if ToBoolean (str_or_undefined day)
             then assign_day day (assign_lastResult (Some value) c)
             else assign_lastResult (Some value) c))]
  | ListenDay, LISTEN_COMPLETE =>
      [goto_if (fun c =>
         Ok (loose_neq_null (JSBool (ToBoolean (str_or_null (day c)))))) CheckDay;
       goto AskDay]
  | ListenDay, ASR_NOINPUT =>
      [assign (fun c => Ok (assign_lastResult None c))]

  | CheckDay, SPEAK_COMPLETE =>
      [goto_if (fun c => Ok (ToBoolean (str_or_null (day c)))) AskFullDay;
       goto AskDay]

  | AskFullDay, SPEAK_COMPLETE => [goto ListenFullDay]

  | ListenFullDay, RECOGNISED value =>
      [assign (fun c =>
         u ← first_utterance value;
         let confirmation := getConfirm u in
         Ok (if strict_neq_undefined (bool_or_undefined confirmation)
             then assign_yesno confirmation (assign_lastResult (Some value) c)
             else assign_lastResult (Some value) c))]
  | ListenFullDay, LISTEN_COMPLETE =>
      [goto_if (fun c =>
         Ok (strict_neq_undefined (bool_or_null (yesno c)))) CheckFullDay;
       goto AskFullDay]
  | ListenFullDay, ASR_NOINPUT =>
      [assign_goto (fun c => Ok (assign_lastResult None c)) AskFullDay]

  | CheckFullDay, SPEAK_COMPLETE =>
      [goto_if (fun c => Ok (strict_eq_bool (bool_or_null (yesno c)) true))
         ConfirmAppointment;
       goto_if (fun c => Ok (strict_eq_bool (bool_or_null (yesno c)) false))
         AskTime;
       goto AskFullDay]

  | AskTime, SPEAK_COMPLETE => [goto ListenTime]

  | ListenTime, RECOGNISED value =>
      [assign (fun c =>
         u ← first_utterance value;
         let time := getTime u in
         Ok (if ToBoolean (str_or_undefined time)
             then assign_time time (assign_lastResult (Some value) c)
             else assign_lastResult (Some value) c))]
  | ListenTime, LISTEN_COMPLETE =>
      [goto_if (fun c =>
         Ok (loose_neq_null (JSBool (ToBoolean (str_or_null (time c)))))) CheckTime;
       goto AskTime]
  | ListenTime, ASR_NOINPUT =>
      [assign (fun c => Ok (assign_lastResult None c))]

  | CheckTime, SPEAK_COMPLETE =>
      [goto_if (fun c => Ok (ToBoolean (str_or_null (time c)))) ConfirmAppointment;
       goto AskTime]

  | ConfirmAppointment, SPEAK_COMPLETE => [goto ListenConfirm]

  | ListenConfirm, RECOGNISED value =>
      [assign (fun c =>
         u ← first_utterance value;
         let confirmation := getConfirm u in
         Ok (if strict_neq_undefined (bool_or_undefined confirmation)
             then assign_lastResult (Some value) c
             else assign_lastResult (Some value) c))]
  | ListenConfirm, LISTEN_COMPLETE =>
      [goto_if (fun c =>
         Ok (loose_neq_null (JSBool (ToBoolean (bool_or_null (yesno c))))))
         CheckConfirmation;
       goto ConfirmAppointment]
  | ListenConfirm, ASR_NOINPUT =>
      [assign_goto (fun c => Ok (assign_lastResult None c)) ConfirmAppointment]

  | CheckConfirmation, SPEAK_COMPLETE =>
      [goto_if (fun c =>
         u ← lastResult_utterance c;
         Ok (strict_eq_bool (bool_or_undefined (getConfirm u)) true)) Greeting;
       goto_if (fun c =>
         u ← lastResult_utterance c;
         Ok (strict_eq_bool (bool_or_undefined (getConfirm u)) false)) Greeting;
       goto Greeting]

  | Done, CLICK => [goto Greeting]

  | _, _ => []
  end.

(** ** Running the table *)

(** The first candidate whose guard holds; the guards are evaluated in
    order and a guard that throws stops the selection. *)
Fixpoint select (ts : list Transition) (c : DMContext) : result (option Transition) :=
  match ts with
  | [] => Ok None
  | t :: ts' =>
      b ← guard t c;
      if b : bool then Ok (Some t) else select ts' c
  end.

(** One event: the selected transition's exit actions, assignment and
    entry actions, in that order.  An event without a handler, or none
    of whose guards holds, leaves the machine as it is. *)
Definition step (s : State) (c : DMContext) (e : DMEvents)
  : result (State * DMContext * list Directive) :=
  t ← select (on s e) c;
  match t with
  | None => Ok (s, c, [])
  | Some t =>
      match target t with
      | None =>
          c' ← actions t c;
          Ok (s, c', [])
      | Some s' =>
          c' ← actions t (exit s c);
          out ← entry s' c';
          Ok (s', c', out)
      end
  end.

(** A sequence of events from state [s]; the directives are collected in
    the order they are sent. *)
Fixpoint run (s : State) (c : DMContext) (es : list DMEvents)
  : result (State * DMContext * list Directive) :=
  match es with
  | [] => Ok (s, c, [])
  | e :: es' =>
      '(s1, c1, out1) ← step s c e;
      '(s2, c2, out2) ← run s1 c1 es';
      Ok (s2, c2, out1 ++ out2)
  end.

(** The states the machine is in after each event of [es], up to the
    event that throws, if any. *)
Fixpoint visits (s : State) (c : DMContext) (es : list DMEvents) : list State :=
  match es with
  | [] => []
  | e :: es' =>
      match step s c e with
      | Ok (s', c', _) => s' :: visits s' c' es'
      | TypeError => []
      end
  end.

Definition hyp (u : string) : ASRHypothesis :=
  {| utterance := u; confidence := 1 |}.

(** ** Scenarios *)

(** The events of one complete dialogue, from [Greeting] up to the
    [LISTEN_COMPLETE] that enters [CheckConfirmation]. *)
Definition happy_path : list DMEvents := [
  SPEAK_COMPLETE;                              (* Greeting *)
  SPEAK_COMPLETE;                              (* AskPerson *)
  RECOGNISED [hyp "Vlad"]; LISTEN_COMPLETE;    (* ListenPerson *)
  SPEAK_COMPLETE;                              (* CheckPerson *)
  SPEAK_COMPLETE;                              (* AskDay *)
  RECOGNISED [hyp "Monday"]; LISTEN_COMPLETE;  (* ListenDay *)
  SPEAK_COMPLETE;                              (* CheckDay *)
  SPEAK_COMPLETE;                              (* AskFullDay *)
  RECOGNISED [hyp "no"]; LISTEN_COMPLETE;      (* ListenFullDay *)
  SPEAK_COMPLETE;                              (* CheckFullDay *)
  SPEAK_COMPLETE;                              (* AskTime *)
  RECOGNISED [hyp "14"]; LISTEN_COMPLETE;      (* ListenTime *)
  SPEAK_COMPLETE;                              (* CheckTime *)
  SPEAK_COMPLETE;                              (* ConfirmAppointment *)
  RECOGNISED [hyp "yes"]; LISTEN_COMPLETE      (* ListenConfirm *)
].

Definition happy_context : DMContext :=
  {| lastResult := Some [hyp "yes"]; person := Some "Vladislav Maraev";
     day := Some "Monday"; yesno := Some false; time := Some "14:00" |}.

(** A dialogue in which the person is understood and the day is not. *)
Definition day_not_understood : list DMEvents := [
  SPEAK_COMPLETE;                              (* Greeting *)
  SPEAK_COMPLETE;                              (* AskPerson *)
  RECOGNISED [hyp "Vlad"]; LISTEN_COMPLETE;    (* ListenPerson *)
  SPEAK_COMPLETE;                              (* CheckPerson *)
  SPEAK_COMPLETE;                              (* AskDay *)
  RECOGNISED [hyp "banana"]; LISTEN_COMPLETE   (* ListenDay *)
].

(** ** How one event changes the context *)

(** The assignments of the table, by the state and the event that make
    them. *)
Inductive context_change (s : State) (c : DMContext) (e : DMEvents)
  : DMContext -> Prop :=
| change_none :
    context_change s c e c
| change_no_input :
    e = ASR_NOINPUT ->
    context_change s c e (assign_lastResult None c)
| change_heard (value : list ASRHypothesis) (u : string) :
    e = RECOGNISED value -> first_utterance value = Ok u ->
    context_change s c e (assign_lastResult (Some value) c)
| change_person (value : list ASRHypothesis) (u p : string) :
    s = ListenPerson ->
    e = RECOGNISED value -> first_utterance value = Ok u ->
    getPerson u = Some p ->
    context_change s c e
      (assign_person (Some p) (assign_lastResult (Some value) c))
| change_day (value : list ASRHypothesis) (u d : string) :
    s = ListenDay ->
    e = RECOGNISED value -> first_utterance value = Ok u ->
    getNumber u = Some d ->
    context_change s c e
      (assign_day (Some d) (assign_lastResult (Some value) c))
| change_yesno (value : list ASRHypothesis) (u : string) (b : bool) :
    s = ListenFullDay ->
    e = RECOGNISED value -> first_utterance value = Ok u ->
    getConfirm u = Some b ->
    context_change s c e
      (assign_yesno (Some b) (assign_lastResult (Some value) c))
| change_time (value : list ASRHypothesis) (u t : string) :
    s = ListenTime ->
    e = RECOGNISED value -> first_utterance value = Ok u ->
    getTime u = Some t ->
    context_change s c e
      (assign_time (Some t) (assign_lastResult (Some value) c))
| change_clear :
    s = CheckConfirmation -> e = SPEAK_COMPLETE ->
    context_change s c e initial_context.

(** ** The branch around the time slot *)

(** The states visited strictly before the first [ConfirmAppointment]. *)
Fixpoint before_ConfirmAppointment (l : list State) : list State :=
  match l with
  | [] => []
  | s :: l' =>
      if decide (s = ConfirmAppointment) then []
      else s :: before_ConfirmAppointment l'
  end.

(** The time states that a run standing in [s] has not been through yet
    since it left [CheckFullDay]. *)
Definition time_states_ahead (s : State) : list State :=
  match s with
  | CheckFullDay => [AskTime; ListenTime; CheckTime]
  | AskTime => [ListenTime; CheckTime]
  | ListenTime => [CheckTime]
  | _ => []
  end.

(** The states between [CheckFullDay] and [ConfirmAppointment] on the
    branch with a time; [CheckFullDay] itself counts while [yesno] is
    [false]. *)
Definition on_time_branch (s : State) (c : DMContext) : Prop :=
  match s with
  | CheckFullDay => yesno c = Some false
  | AskTime | ListenTime | CheckTime => True
  | _ => False
  end.

(** ** The machine together with its speech actor *)

(** What the user does while the speech actor listens. *)
Inductive UserTurn : Type :=
| Says (value : list ASRHypothesis)
| Silent.

(** Modelled from the spec: the speech actor is the external package
    speechstate, whose code is not part of this repository; its event
    contract is the one of section 6.  [PREPARE] is answered by
    [ASRTTS_READY], [SPEAK] by [SPEAK_COMPLETE], and [LISTEN] by exactly
    one of [RECOGNISED] and [ASR_NOINPUT], followed by
    [LISTEN_COMPLETE]. *)
Definition reply (turn : UserTurn) (d : Directive) : list DMEvents :=
  match d with
  | PREPARE => [ASRTTS_READY]
  | SPEAK _ => [SPEAK_COMPLETE]
  | LISTEN =>
      match turn with
      | Says value => [RECOGNISED value; LISTEN_COMPLETE]
      | Silent => [ASR_NOINPUT; LISTEN_COMPLETE]
      end
  end.

(** The machine, and the events that the speech actor has raised and the
    machine has not handled yet, oldest first. *)
Record Config : Type := {
  state : State;
  context : DMContext;
  pending : list DMEvents
}.

(** One move of the whole system: the machine handles the oldest pending
    event, or a [CLICK] of the user; the replies to what it sends are
    queued behind the events already pending.  [turn] is what the user
    does if the step starts a [LISTEN]. *)
Inductive Move : Type :=
| Deliver (turn : UserTurn)
| Press (turn : UserTurn).

Definition handle (k : Config) (e : DMEvents) (rest : list DMEvents)
    (turn : UserTurn) : option Config :=
  match step (state k) (context k) e with
  | Ok (s', c', out) =>
      Some {| state := s'; context := c';
              pending := rest ++ concat (map (reply turn) out) |}
  | TypeError => None
  end.

Definition move (m : Move) (k : Config) : option Config :=
  match m with
  | Deliver turn =>
      match pending k with
      | e :: rest => handle k e rest turn
      | [] => None
      end
  | Press turn => handle k CLICK (pending k) turn
  end.

(** The machine starts in [Prepare], whose entry action sends
    [PREPARE]. *)
Definition start : Config :=
  {| state := Prepare; context := initial_context;
     pending := reply Silent PREPARE |}.

Inductive reachable : Config -> Prop :=
| reachable_start : reachable start
| reachable_move (k k' : Config) (m : Move) :
    reachable k -> move m k = Some k' -> reachable k'.

Fixpoint play (ms : list Move) (k : Config) : option Config :=
  match ms with
  | [] => Some k
  | m :: ms' =>
      match move m k with
      | Some k' => play ms' k'
      | None => None
      end
  end.

(** The moves of one complete dialogue, up to the [RECOGNISED] event of
    [ListenConfirm]. *)
Definition happy_moves : list Move := [
  Deliver Silent;                  (* ASRTTS_READY *)
  Press Silent;                    (* CLICK *)
  Deliver Silent;                  (* Greeting *)
  Deliver (Says [hyp "Vlad"]);     (* AskPerson *)
  Deliver Silent; Deliver Silent;  (* ListenPerson *)
  Deliver Silent;                  (* CheckPerson *)
  Deliver (Says [hyp "Monday"]);   (* AskDay *)
  Deliver Silent; Deliver Silent;  (* ListenDay *)
  Deliver Silent;                  (* CheckDay *)
  Deliver (Says [hyp "no"]);       (* AskFullDay *)
  Deliver Silent; Deliver Silent;  (* ListenFullDay *)
  Deliver Silent;                  (* CheckFullDay *)
  Deliver (Says [hyp "14"]);       (* AskTime *)
  Deliver Silent; Deliver Silent;  (* ListenTime *)
  Deliver Silent;                  (* CheckTime *)
  Deliver (Says [hyp "yes"]);      (* ConfirmAppointment *)
  Deliver Silent                   (* ListenConfirm: RECOGNISED *)
].

(** *** What is pending in each state *)

Definition awaiting_speech (q : list DMEvents) : Prop :=
  q = [SPEAK_COMPLETE] \/ q = [LISTEN_COMPLETE; SPEAK_COMPLETE].

Definition awaiting_listen (q : list DMEvents) : Prop :=
  (exists value, q = [RECOGNISED value; LISTEN_COMPLETE])
  \/ q = [ASR_NOINPUT; LISTEN_COMPLETE]
  \/ q = [LISTEN_COMPLETE].

(** [lastResult] is a list with a first hypothesis. *)
Definition heard (c : DMContext) : Prop :=
  exists h rest, lastResult c = Some (h :: rest).

(** Speaking states wait for [SPEAK_COMPLETE], behind the
    [LISTEN_COMPLETE] of a listen that was left on [ASR_NOINPUT];
    listening states wait for the replies to their [LISTEN]; and in
    [ListenConfirm] a [LISTEN_COMPLETE] alone means that a [RECOGNISED]
    event has been handled there. *)
Definition contract_invariant (k : Config) : Prop :=
  match state k with
  | Prepare => pending k = [ASRTTS_READY]
  | WaitToStart | Done | NewState1 => pending k = []
  | ListenPerson | ListenDay | ListenFullDay | ListenTime =>
      awaiting_listen (pending k)
  | ListenConfirm =>
      awaiting_listen (pending k)
      /\ (pending k = [LISTEN_COMPLETE] -> heard (context k))
  | CheckConfirmation =>
      pending k = [SPEAK_COMPLETE] /\ heard (context k)
  | Greeting | AskPerson | CheckPerson | AskDay | CheckDay | AskFullDay
  | CheckFullDay | AskTime | CheckTime | ConfirmAppointment =>
      awaiting_speech (pending k)
  end.

(** ** Classes of states *)

(** The states whose entry action is [spst.listen]. *)
Definition is_listen (s : State) : bool :=
  match s with
  | ListenPerson | ListenDay | ListenFullDay | ListenTime | ListenConfirm =>
      true
  | _ => false
  end.

(** The states whose entry action is [spst.speak]. *)
Definition is_speak (s : State) : bool :=
  match s with
  | Greeting | AskPerson | CheckPerson | AskDay | CheckDay | AskFullDay
  | CheckFullDay | AskTime | CheckTime | ConfirmAppointment
  | CheckConfirmation => true
  | _ => false
  end.

(** ** What the context holds at each stage of the dialogue *)

(** The slots that the guards on the way to [s] have tested. *)
Definition slots_filled (s : State) (c : DMContext) : Prop :=
  match s with
  | Prepare | WaitToStart | Greeting | AskPerson | ListenPerson => True
  | CheckPerson | AskDay | ListenDay | CheckDay => is_Some (person c)
  | AskFullDay | ListenFullDay | CheckFullDay =>
      is_Some (person c) /\ is_Some (day c)
  | AskTime | ListenTime | CheckTime =>
      is_Some (person c) /\ is_Some (day c) /\ yesno c = Some false
  | ConfirmAppointment | ListenConfirm | CheckConfirmation =>
      is_Some (person c) /\ is_Some (day c)
      /\ (yesno c = Some true \/ (yesno c = Some false /\ is_Some (time c)))
  | Done | NewState1 => False
  end.

(** Every slot that is set holds a value that some utterance resolves
    to. *)
Definition from_grammar (c : DMContext) : Prop :=
  (forall p, person c = Some p -> exists u, getPerson u = Some p)
  /\ (forall d, day c = Some d -> exists u, getNumber u = Some d)
  /\ (forall b, yesno c = Some b -> exists u, getConfirm u = Some b)
  /\ (forall t, time c = Some t -> exists u, getTime u = Some t).

(** The sentence of [CheckConfirmation], by what the last utterance
    resolves to. *)
Definition confirmation_sentence (confirmation : option bool) : string :=
  match confirmation with
  | Some true => "Your appointment has been created!"
  | Some false => "Okay, let's start over."
  | None => "I didn't understand. Let's start over."
  end.

(** The number of properties that a grammar entry has. *)
Definition entry_size (e : Vocabulary.GrammarEntry) : nat :=
  (match Vocabulary.person e with Some _ => 1 | None => 0 end
   + match Vocabulary.day e with Some _ => 1 | None => 0 end
   + match Vocabulary.time e with Some _ => 1 | None => 0 end
   + match Vocabulary.yesno e with Some _ => 1 | None => 0 end)%nat.

(** ** Proof automation *)

Ltac unfold_step H :=
  repeat (progress
            (cbn -[getPerson getNumber getFullDay getTime getConfirm] in H;
             unfold mbind, result_bind in H)).

(** Case analysis of a successful [step]: unfold the table at the given
    state and event, then split on every guard and resolver result that
    the outcome depends on, innermost first. *)
Ltac step_cases H :=
  unfold_step H;
  repeat (match type of H with
          | context [match ?x with _ => _ end] =>
              lazymatch x with
              | context [match _ with _ => _ end] => fail
              | _ => destruct x eqn:?
              end
          end;
          unfold_step H);
  try discriminate H.

(** Take a [contract_invariant] hypothesis apart until the pending
    events are explicit. *)
Ltac split_invariant :=
  repeat match goal with
         | H : _ /\ _ |- _ => destruct H
         | H : _ \/ _ |- _ => destruct H
         | H : exists _, _ |- _ => destruct H
         | H : _ :: _ = _ :: _ |- _ => injection H as ? ?; subst
         | H : _ :: _ = [] |- _ => discriminate H
         | H : [] = _ :: _ |- _ => discriminate H
         | H : ?a = ?a -> _ |- _ => specialize (H eq_refl)
         end.

(** Evaluate a run over explicit events, leaving the resolvers alone. *)
Ltac eval_run :=
  repeat (progress
            (cbn -[getPerson getNumber getFullDay getTime getConfirm];
             unfold mbind, result_bind)).

(** Split the goal on every guard that the outcome of a step depends
    on, innermost first. *)
Ltac goal_cases :=
  repeat (progress
            (cbn -[getPerson getNumber getFullDay getTime getConfirm];
             unfold mbind, result_bind));
  repeat (match goal with
          | |- context [match ?x with _ => _ end] =>
              lazymatch x with
              | context [match _ with _ => _ end] => fail
              | _ => destruct x eqn:?
              end
          end;
          repeat (progress
                    (cbn -[getPerson getNumber getFullDay getTime getConfirm];
                     unfold mbind, result_bind))).

(** * Properties *)

Example getPerson_Vlad : Vocabulary.getPerson "Vlad" = Some "Vladislav Maraev".
Proof. vm_compute. reflexivity. Qed.

Example isInGrammar_constructor : Vocabulary.isInGrammar "Constructor" = true.
Proof. vm_compute. reflexivity. Qed.

Example isInGrammar_toString : Vocabulary.isInGrammar "toString" = false.
Proof. vm_compute. reflexivity. Qed.

Example step_banana :
  run ListenPerson initial_context [RECOGNISED [hyp "banana"]; LISTEN_COMPLETE]
  = Ok (AskPerson, assign_lastResult (Some [hyp "banana"]) initial_context,
        [SPEAK "Who are you meeting with?"]).
Proof. vm_compute. reflexivity. Qed.

(** ** Listen states on [LISTEN_COMPLETE] *)

(** What each of the five guards computes.  The guard of [ListenPerson]
    tests the slot; the other four hold for every context: [!!x] is a
    boolean and no boolean is loosely equal to [null], and a field that
    is [null] is not [undefined]. *)
Lemma ListenPerson_LISTEN_COMPLETE (c : DMContext) :
  step ListenPerson c LISTEN_COMPLETE
  = match person c with
    | Some p => Ok (CheckPerson, c, [SPEAK ("You will meet " +:+ p +:+ ".")])
    | None => Ok (AskPerson, c, [SPEAK "Who are you meeting with?"])
    end.
Proof. destruct c as [lr [p|] d y t]; reflexivity. Qed.

Lemma ListenDay_LISTEN_COMPLETE (c : DMContext) :
  exists out, step ListenDay c LISTEN_COMPLETE = Ok (CheckDay, c, out).
Proof. destruct c as [lr p [d|] y t]; eexists; reflexivity. Qed.

Lemma ListenFullDay_LISTEN_COMPLETE (c : DMContext) :
  exists out, step ListenFullDay c LISTEN_COMPLETE = Ok (CheckFullDay, c, out).
Proof. destruct c as [lr p d [y|] t]; eexists; reflexivity. Qed.

Lemma ListenTime_LISTEN_COMPLETE (c : DMContext) :
  exists out, step ListenTime c LISTEN_COMPLETE = Ok (CheckTime, c, out).
Proof. destruct c as [lr p d y [t|]]; eexists; reflexivity. Qed.

Lemma ListenConfirm_LISTEN_COMPLETE (c : DMContext) :
  heard c ->
  exists out,
    step ListenConfirm c LISTEN_COMPLETE = Ok (CheckConfirmation, c, out).
Proof.
  intros (h & rest & Hlr).
  destruct c as [lr p d [[|]|] t]; simpl in Hlr; subst lr;
    eexists; reflexivity.
Qed.

(** C1, evaluated on the code.  In a dialogue where the person is
    understood and the day is not, [LISTEN_COMPLETE] in [ListenDay]
    finds [day] absent and yet enters [CheckDay], which speaks, where
    the specification sends the machine back to [AskDay].  [ListenFullDay] and
    [ListenTime] do the same with their slot absent; [ListenPerson]
    alone goes back to its Ask state. *)
Theorem listen_complete_with_absent_slot :
  run Greeting initial_context day_not_understood
  = Ok (CheckDay,
        {| lastResult := Some [hyp "banana"];
           person := Some "Vladislav Maraev"; day := None;
           yesno := None; time := None |},
        [SPEAK "Who are you meeting with?"; LISTEN;
         SPEAK "You will meet Vladislav Maraev.";
         SPEAK "Which day do you want the meeting?"; LISTEN;
         SPEAK "I did't understand the day"])
  /\ step ListenDay initial_context LISTEN_COMPLETE
     = Ok (CheckDay, initial_context, [SPEAK "I did't understand the day"])
  /\ step ListenFullDay initial_context LISTEN_COMPLETE
     = Ok (CheckFullDay, initial_context,
           [SPEAK "Ok, the meeting will not be the whole day."])
  /\ step ListenTime initial_context LISTEN_COMPLETE
     = Ok (CheckTime, initial_context, [SPEAK "I did not understand the time."])
  /\ step ListenPerson initial_context LISTEN_COMPLETE
     = Ok (AskPerson, initial_context, [SPEAK "Who are you meeting with?"]).
Proof. repeat split; vm_compute; reflexivity. Qed.

(** ** An utterance outside the grammar in [ListenPerson] *)

Lemma getPerson_banana_None : getPerson "banana" = None.
Proof. vm_compute. reflexivity. Qed.

(** C2 as stated fails: after "banana" and [LISTEN_COMPLETE] from a
    context without a person, the machine is not in [CheckPerson]. *)
Lemma banana_does_not_enter_CheckPerson :
  ~ exists c out,
      run ListenPerson initial_context
          [RECOGNISED [hyp "banana"]; LISTEN_COMPLETE]
      = Ok (CheckPerson, c, out).
Proof. intros (c & out & H). vm_compute in H. discriminate H. Qed.

(** C2, amended: from a context without a person, "banana" followed by
    [LISTEN_COMPLETE] leaves [person] absent and takes the machine
    straight back to [AskPerson], which speaks its prompt; [CheckPerson]
    is not entered.  [CheckPerson] itself, entered without a person,
    speaks "I didn't understand the person's name." and goes back to
    [AskPerson] on [SPEAK_COMPLETE]. *)
Theorem banana_reprompts_person (c : DMContext) (h : ASRHypothesis)
    (rest : list ASRHypothesis) :
  person c = None ->
  utterance h = "banana" ->
  let c' := assign_lastResult (Some (h :: rest)) c in
  step ListenPerson c (RECOGNISED (h :: rest)) = Ok (ListenPerson, c', [])
  /\ person c' = None
  /\ step ListenPerson c' LISTEN_COMPLETE
     = Ok (AskPerson, c', [SPEAK "Who are you meeting with?"])
  /\ entry CheckPerson c'
     = Ok [SPEAK "I didn't understand the person's name."]
  /\ step CheckPerson c' SPEAK_COMPLETE
     = Ok (AskPerson, c', [SPEAK "Who are you meeting with?"]).
Proof.
  intros Hp Hu c'.
  assert (Hstep : step ListenPerson c (RECOGNISED (h :: rest))
                  = Ok (ListenPerson, c', [])).
  { cbn -[getPerson]. rewrite Hu, getPerson_banana_None. reflexivity. }
  destruct c as [lr p d y t]; simpl in Hp; subst p.
  repeat split; try assumption; reflexivity.
Qed.

Lemma banana_reprompts_person_witness :
  let c' := assign_lastResult (Some [hyp "banana"]) initial_context in
  step ListenPerson initial_context (RECOGNISED [hyp "banana"])
  = Ok (ListenPerson, c', [])
  /\ person c' = None
  /\ step ListenPerson c' LISTEN_COMPLETE
     = Ok (AskPerson, c', [SPEAK "Who are you meeting with?"])
  /\ entry CheckPerson c'
     = Ok [SPEAK "I didn't understand the person's name."]
  /\ step CheckPerson c' SPEAK_COMPLETE
     = Ok (AskPerson, c', [SPEAK "Who are you meeting with?"]).
Proof.
  apply (banana_reprompts_person initial_context (hyp "banana") []);
    reflexivity.
Defined.

(** ** Leaving [CheckConfirmation] *)

Lemma CheckConfirmation_SPEAK_COMPLETE (c : DMContext) (h : ASRHypothesis)
    (rest : list ASRHypothesis) :
  lastResult c = Some (h :: rest) ->
  step CheckConfirmation c SPEAK_COMPLETE
  = Ok (Greeting, initial_context, [SPEAK "Hi, let's create an appointment"]).
Proof.
  destruct c as [lr p d y t]; simpl; intros ->.
  cbn -[getConfirm].
  destruct (getConfirm (utterance h)) as [[|]|]; reflexivity.
Qed.

(** C3: [CheckConfirmation] is left on [SPEAK_COMPLETE] only, and then
    for [Greeting] with every context field [null], whichever of the
    three answers (yes, no, not in the grammar) the last utterance
    resolves to. *)
Theorem CheckConfirmation_exit_clears_context :
  (forall (c : DMContext) (h : ASRHypothesis) (rest : list ASRHypothesis)
          (confirmation : option bool),
      lastResult c = Some (h :: rest) ->
      getConfirm (utterance h) = confirmation ->
      exists c',
        step CheckConfirmation c SPEAK_COMPLETE
        = Ok (Greeting, c', [SPEAK "Hi, let's create an appointment"])
        /\ lastResult c' = None /\ person c' = None /\ day c' = None
        /\ yesno c' = None /\ time c' = None)
  /\ (forall (c : DMContext) (e : DMEvents) (s' : State) (c' : DMContext)
             (out : list Directive),
         step CheckConfirmation c e = Ok (s', c', out) ->
         s' <> CheckConfirmation ->
         e = SPEAK_COMPLETE /\ s' = Greeting
         /\ lastResult c' = None /\ person c' = None /\ day c' = None
         /\ yesno c' = None /\ time c' = None).
Proof.
  split.
  - intros c h rest confirmation Hlr _.
    exists initial_context.
    rewrite (CheckConfirmation_SPEAK_COMPLETE c h rest Hlr).
    repeat split.
  - intros c e s' c' out Hstep Hleft.
    destruct e; try (cbn in Hstep; injection Hstep as <- _ _; congruence).
    destruct (lastResult c) as [[|h rest]|] eqn:Hlr.
    + destruct c; simpl in Hlr; subst; discriminate Hstep.
    + rewrite (CheckConfirmation_SPEAK_COMPLETE c h rest Hlr) in Hstep.
      injection Hstep as <- <- _. repeat split.
    + destruct c; simpl in Hlr; subst; discriminate Hstep.
Qed.

Lemma CheckConfirmation_exit_clears_context_witness :
  let c := {| lastResult := Some [hyp "no way"]; person := Some "Lou Reed";
              day := Some "Friday"; yesno := Some true; time := None |} in
  (exists c',
      step CheckConfirmation c SPEAK_COMPLETE
      = Ok (Greeting, c', [SPEAK "Hi, let's create an appointment"])
      /\ lastResult c' = None /\ person c' = None /\ day c' = None
      /\ yesno c' = None /\ time c' = None)
  /\ (SPEAK_COMPLETE = SPEAK_COMPLETE /\ Greeting = Greeting
      /\ lastResult initial_context = None /\ person initial_context = None
      /\ day initial_context = None /\ yesno initial_context = None
      /\ time initial_context = None).
Proof.
  intros c. split.
  - apply (proj1 CheckConfirmation_exit_clears_context c (hyp "no way") []
             (Some false)); vm_compute; reflexivity.
  - apply (proj2 CheckConfirmation_exit_clears_context c SPEAK_COMPLETE
             Greeting initial_context
             [SPEAK "Hi, let's create an appointment"]).
    + vm_compute. reflexivity.
    + discriminate.
Defined.

(** ** No input *)

(** C4: on [ASR_NOINPUT], [ListenPerson], [ListenDay] and [ListenTime]
    set [lastResult] to [null] and stay where they are, sending nothing;
    [ListenFullDay] and [ListenConfirm] set [lastResult] to [null] and
    enter [AskFullDay], respectively [ConfirmAppointment], at once. *)
Theorem no_input_handling (c : DMContext) :
  let c' := assign_lastResult None c in
  lastResult c' = None
  /\ step ListenPerson c ASR_NOINPUT = Ok (ListenPerson, c', [])
  /\ step ListenDay c ASR_NOINPUT = Ok (ListenDay, c', [])
  /\ step ListenTime c ASR_NOINPUT = Ok (ListenTime, c', [])
  /\ step ListenFullDay c ASR_NOINPUT
     = Ok (AskFullDay, c', [SPEAK "Will it take the whole day?"])
  /\ exists question,
       step ListenConfirm c ASR_NOINPUT
       = Ok (ConfirmAppointment, c', [SPEAK question]).
Proof.
  destruct c as [lr p d y t].
  repeat split; eexists; reflexivity.
Qed.

(** ** The branch after [CheckFullDay] *)

(** C5: on [SPEAK_COMPLETE] in [CheckFullDay] the target is
    [ConfirmAppointment] when [yesno] is [true], [AskTime] when it is
    [false] and [AskFullDay] when it is [null]; the context is kept. *)
Theorem CheckFullDay_SPEAK_COMPLETE (c : DMContext) :
  exists out,
    step CheckFullDay c SPEAK_COMPLETE
    = Ok (match yesno c with
          | Some true => ConfirmAppointment
          | Some false => AskTime
          | None => AskFullDay
          end, c, out).
Proof.
  destruct c as [lr p d [[|]|] t]; eexists; reflexivity.
Qed.

(** ** The happy path *)

(** C7: the happy path visits the slot states in order and ends in
    [CheckConfirmation] with the four slots filled, the last thing said
    being "Your appointment has been created!"; one more
    [SPEAK_COMPLETE] enters [Greeting] with the context cleared. *)
Theorem happy_path_creates_appointment :
  visits Greeting initial_context happy_path
  = [AskPerson; ListenPerson; ListenPerson; CheckPerson;
     AskDay; ListenDay; ListenDay; CheckDay;
     AskFullDay; ListenFullDay; ListenFullDay; CheckFullDay;
     AskTime; ListenTime; ListenTime; CheckTime;
     ConfirmAppointment; ListenConfirm; ListenConfirm; CheckConfirmation]
  /\ run Greeting initial_context happy_path
     = Ok (CheckConfirmation,
           {| lastResult := Some [hyp "yes"];
              person := Some "Vladislav Maraev"; day := Some "Monday";
              yesno := Some false; time := Some "14:00" |},
           [SPEAK "Who are you meeting with?"; LISTEN;
            SPEAK "You will meet Vladislav Maraev.";
            SPEAK "Which day do you want the meeting?"; LISTEN;
            SPEAK "The day will be Monday.";
            SPEAK "Will it take the whole day?"; LISTEN;
            SPEAK "Ok, the meeting will not be the whole day.";
            SPEAK "What time is your meeting?"; LISTEN;
            SPEAK "You will meet at 14:00.";
            SPEAK "Do you want me to create an appointment with Vladislav Maraev on Monday at 14:00?";
            LISTEN;
            SPEAK "Your appointment has been created!"])
  /\ run Greeting initial_context (happy_path ++ [SPEAK_COMPLETE])
     = Ok (Greeting, initial_context,
           [SPEAK "Who are you meeting with?"; LISTEN;
            SPEAK "You will meet Vladislav Maraev.";
            SPEAK "Which day do you want the meeting?"; LISTEN;
            SPEAK "The day will be Monday.";
            SPEAK "Will it take the whole day?"; LISTEN;
            SPEAK "Ok, the meeting will not be the whole day.";
            SPEAK "What time is your meeting?"; LISTEN;
            SPEAK "You will meet at 14:00.";
            SPEAK "Do you want me to create an appointment with Vladislav Maraev on Monday at 14:00?";
            LISTEN;
            SPEAK "Your appointment has been created!";
            SPEAK "Hi, let's create an appointment"]).
Proof. repeat split; vm_compute; reflexivity. Qed.

(** ** Case-insensitivity of the resolvers *)

Lemma lower_char_idempotent (a : Ascii.ascii) :
  Vocabulary.lower_char (Vocabulary.lower_char a) = Vocabulary.lower_char a.
Proof.
  destruct a as [b0 b1 b2 b3 b4 b5 b6 b7].
  destruct b0, b1, b2, b3, b4, b5, b6, b7; reflexivity.
Qed.

Lemma toLowerCase_idempotent (u : string) :
  Vocabulary.toLowerCase (Vocabulary.toLowerCase u) = Vocabulary.toLowerCase u.
Proof.
  induction u as [|a u IH]; simpl.
  - reflexivity.
  - rewrite lower_char_idempotent, IH. reflexivity.
Qed.

(** C9: each resolver gives the same result on an utterance and on its
    lower-cased form. *)
Theorem resolvers_case_insensitive (u : string) :
  Vocabulary.isInGrammar u = Vocabulary.isInGrammar (Vocabulary.toLowerCase u)
  /\ getPerson u = getPerson (Vocabulary.toLowerCase u)
  /\ getNumber u = getNumber (Vocabulary.toLowerCase u)
  /\ getFullDay u = getFullDay (Vocabulary.toLowerCase u)
  /\ getTime u = getTime (Vocabulary.toLowerCase u)
  /\ getConfirm u = getConfirm (Vocabulary.toLowerCase u).
Proof.
  unfold Vocabulary.isInGrammar, getPerson, getNumber, getFullDay, getTime,
    getConfirm.
  rewrite toLowerCase_idempotent. repeat split.
Qed.

Example getPerson_mixed_case :
  getPerson "VLAD" = Some "Vladislav Maraev"
  /\ getPerson "vLaD" = getPerson "vlad"
  /\ getConfirm "Of Course" = Some true.
Proof. repeat split; vm_compute; reflexivity. Qed.
(** ** Frame of the slots *)

Lemma step_context_change (s : State) (c : DMContext) (e : DMEvents)
    (s' : State) (c' : DMContext) (out : list Directive) :
  step s c e = Ok (s', c', out) -> context_change s c e c'.
Proof.
  intros H.
  destruct s, e; step_cases H; injection H as <- <- <-;
    try (constructor; reflexivity);
    try (eapply change_heard; eauto; fail).
  - destruct (getPerson a) eqn:?; [|discriminate].
    eapply change_person; eauto.
  - destruct (getNumber a) eqn:?; [|discriminate].
    eapply change_day; eauto.
  - destruct (getConfirm a) eqn:?; [|discriminate].
    eapply change_yesno; eauto.
  - destruct (getTime a) eqn:?; [|discriminate].
    eapply change_time; eauto.
Qed.

(** C8: one event either is the [SPEAK_COMPLETE] that leaves
    [CheckConfirmation], which clears the context, or changes at most
    the slot of the Listen state that handles it, and then by a
    [RECOGNISED] event whose first utterance resolves to the new value;
    every other slot keeps its value. *)
Theorem slots_change_only_by_own_recognition (s : State) (c : DMContext)
    (e : DMEvents) (s' : State) (c' : DMContext) (out : list Directive) :
  step s c e = Ok (s', c', out) ->
  (s = CheckConfirmation /\ e = SPEAK_COMPLETE /\ s' = Greeting
   /\ c' = initial_context)
  \/ ((person c' = person c
       \/ (s = ListenPerson /\ exists value u p,
             e = RECOGNISED value /\ first_utterance value = Ok u
             /\ getPerson u = Some p /\ person c' = Some p))
      /\ (day c' = day c
          \/ (s = ListenDay /\ exists value u d,
                e = RECOGNISED value /\ first_utterance value = Ok u
                /\ getNumber u = Some d /\ day c' = Some d))
      /\ (yesno c' = yesno c
          \/ (s = ListenFullDay /\ exists value u b,
                e = RECOGNISED value /\ first_utterance value = Ok u
                /\ getConfirm u = Some b /\ yesno c' = Some b))
      /\ (time c' = time c
          \/ (s = ListenTime /\ exists value u t,
                e = RECOGNISED value /\ first_utterance value = Ok u
                /\ getTime u = Some t /\ time c' = Some t))).
Proof.
  intros H.
  destruct (step_context_change _ _ _ _ _ _ H)
    as [ | | | value u p -> -> | value u d -> -> | value u b -> ->
       | value u t -> -> | -> ->].
  8: { left. repeat split.
       destruct (lastResult c) as [[|h rest]|] eqn:Hlr.
       - destruct c; simpl in Hlr; subst; discriminate H.
       - rewrite (CheckConfirmation_SPEAK_COMPLETE c h rest Hlr) in H.
         congruence.
       - destruct c; simpl in Hlr; subst; discriminate H. }
  all: right; repeat split; try (left; reflexivity).
  - right. split; [reflexivity|]. exists value, u, p. auto.
  - right. split; [reflexivity|]. exists value, u, d. auto.
  - right. split; [reflexivity|]. exists value, u, b. auto.
  - right. split; [reflexivity|]. exists value, u, t. auto.
Qed.

Lemma slots_change_only_by_own_recognition_witness :
  let c := {| lastResult := None; person := None; day := Some "Friday";
              yesno := Some true; time := Some "9:00" |} in
  let c' := {| lastResult := Some [hyp "Lou"]; person := Some "Lou Reed";
               day := Some "Friday"; yesno := Some true;
               time := Some "9:00" |} in
  let e := RECOGNISED [hyp "Lou"] in
  step ListenPerson c e = Ok (ListenPerson, c', [])
  /\ ((ListenPerson = CheckConfirmation /\ e = SPEAK_COMPLETE
       /\ ListenPerson = Greeting /\ c' = initial_context)
      \/ ((person c' = person c
           \/ (ListenPerson = ListenPerson /\ exists value u p,
                 e = RECOGNISED value /\ first_utterance value = Ok u
                 /\ getPerson u = Some p /\ person c' = Some p))
          /\ (day c' = day c
              \/ (ListenPerson = ListenDay /\ exists value u d,
                    e = RECOGNISED value /\ first_utterance value = Ok u
                    /\ getNumber u = Some d /\ day c' = Some d))
          /\ (yesno c' = yesno c
              \/ (ListenPerson = ListenFullDay /\ exists value u b,
                    e = RECOGNISED value /\ first_utterance value = Ok u
                    /\ getConfirm u = Some b /\ yesno c' = Some b))
          /\ (time c' = time c
              \/ (ListenPerson = ListenTime /\ exists value u t,
                    e = RECOGNISED value /\ first_utterance value = Ok u
                    /\ getTime u = Some t /\ time c' = Some t)))).
Proof.
  intros c c' e.
  assert (H : step ListenPerson c e = Ok (ListenPerson, c', []))
    by (vm_compute; reflexivity).
  split; [exact H|].
  exact (slots_change_only_by_own_recognition ListenPerson c e
           ListenPerson c' [] H).
Defined.
(** ** The branch around the time slot *)

Lemma whole_day_visits (es : list DMEvents) (c : DMContext) :
  yesno c = Some true ->
  Forall (eq CheckFullDay)
    (before_ConfirmAppointment (visits CheckFullDay c es)).
Proof.
  intros Hy. induction es as [|e es IH]; simpl; [constructor|].
  destruct c as [lr p d y t]; simpl in Hy; subst y.
  destruct e; simpl; constructor; solve [reflexivity | exact IH].
Qed.

Lemma time_branch_visits (es : list DMEvents) :
  forall (s : State) (c : DMContext),
    on_time_branch s c ->
    ConfirmAppointment ∈ visits s c es ->
    forall x, x ∈ time_states_ahead s ->
              x ∈ before_ConfirmAppointment (visits s c es).
Proof.
  induction es as [|e es IH]; intros s c Hs Hin x Hx; simpl in *.
  - inversion Hin.
  - destruct (step s c e) as [[[s1 c1] out]|] eqn:Hstep; [|inversion Hin].
    destruct c as [lr p d y t].
    destruct s; try contradiction; simpl in Hs; subst;
      destruct e; step_cases Hstep; injection Hstep as <- <- <-;
      simpl in Hx |- *.
    all: try (inversion Hx; fail).
    all: apply elem_of_cons in Hin as [Hin|Hin]; [discriminate Hin|].
    all: match goal with
         | |- _ ∈ ?s1 :: before_ConfirmAppointment (visits ?s1 ?c1 _) =>
             specialize (IH s1 c1)
         end.
    all: specialize (IH ltac:(exact I || reflexivity) Hin);
      cbn [time_states_ahead] in IH.
    all: repeat (apply elem_of_cons in Hx as [->|Hx]);
      try (inversion Hx; fail).
    all: first [ left | right; apply IH; repeat constructor ].
Qed.

(** C6: from [CheckFullDay] with [yesno] [true], whatever events follow,
    no state before the first [ConfirmAppointment] is [AskTime],
    [ListenTime] or [CheckTime]; with [yesno] [false], a run that gets
    to [ConfirmAppointment] has been in [AskTime], [ListenTime] and
    [CheckTime] before. *)
Theorem whole_day_branch_exclusive (c : DMContext) (es : list DMEvents) :
  let before := before_ConfirmAppointment (visits CheckFullDay c es) in
  (yesno c = Some true ->
   (AskTime ∉ before) /\ (ListenTime ∉ before) /\ (CheckTime ∉ before))
  /\ (yesno c = Some false ->
      ConfirmAppointment ∈ visits CheckFullDay c es ->
      (AskTime ∈ before) /\ (ListenTime ∈ before) /\ (CheckTime ∈ before)).
Proof.
  intros before. split.
  - intros Hy.
    pose proof (whole_day_visits es c Hy) as Hall.
    rewrite Forall_forall in Hall.
    repeat split; intros Hin; apply Hall in Hin; discriminate Hin.
  - intros Hy Hin.
    pose proof (time_branch_visits es CheckFullDay c Hy Hin) as Hall.
    cbn [time_states_ahead] in Hall.
    repeat split; apply Hall; repeat constructor.
Qed.

Lemma whole_day_branch_exclusive_witness :
  let whole := {| lastResult := Some [hyp "yes"]; person := Some "Lou Reed";
                  day := Some "Friday"; yesno := Some true; time := None |} in
  let part := {| lastResult := Some [hyp "no"]; person := Some "Lou Reed";
                 day := Some "Friday"; yesno := Some false; time := None |} in
  let es_whole := [LISTEN_COMPLETE; SPEAK_COMPLETE; SPEAK_COMPLETE] in
  let es_part := [LISTEN_COMPLETE; SPEAK_COMPLETE; SPEAK_COMPLETE;
                  RECOGNISED [hyp "banana"]; LISTEN_COMPLETE; SPEAK_COMPLETE;
                  SPEAK_COMPLETE; RECOGNISED [hyp "14"]; LISTEN_COMPLETE;
                  SPEAK_COMPLETE] in
  let before_whole :=
    before_ConfirmAppointment (visits CheckFullDay whole es_whole) in
  let before_part :=
    before_ConfirmAppointment (visits CheckFullDay part es_part) in
  ((AskTime ∉ before_whole) /\ (ListenTime ∉ before_whole)
   /\ (CheckTime ∉ before_whole))
  /\ ((AskTime ∈ before_part) /\ (ListenTime ∈ before_part)
      /\ (CheckTime ∈ before_part)).
Proof.
  intros whole part es_whole es_part before_whole before_part. split.
  - apply (proj1 (whole_day_branch_exclusive whole es_whole)).
    reflexivity.
  - apply (proj2 (whole_day_branch_exclusive part es_part)).
    + reflexivity.
    + vm_compute. repeat constructor.
Defined.
(** ** The machine against the contract of the speech actor *)

Lemma play_reachable (ms : list Move) :
  forall k k', reachable k -> play ms k = Some k' -> reachable k'.
Proof.
  induction ms as [|m ms IH]; simpl; intros k k' Hk Hplay.
  - congruence.
  - destruct (move m k) as [k1|] eqn:Hm; [|discriminate].
    eapply IH; [|exact Hplay]. eapply reachable_move; eauto.
Qed.

Lemma contract_invariant_start : contract_invariant start.
Proof. reflexivity. Qed.

Lemma first_utterance_heard (value : list ASRHypothesis) (u : string)
    (c : DMContext) :
  first_utterance value = Ok u -> heard (assign_lastResult (Some value) c).
Proof.
  destruct value as [|h rest]; [discriminate|].
  intros _. exists h, rest. reflexivity.
Qed.

Lemma contract_invariant_deliver (k k' : Config) (e : DMEvents)
    (rest : list DMEvents) (turn : UserTurn) :
  contract_invariant k ->
  pending k = e :: rest ->
  handle k e rest turn = Some k' ->
  contract_invariant k'.
Proof.
  unfold handle. destruct k as [s c q]; simpl.
  intros Hinv -> Hh.
  destruct (step s c e) as [[[s' c'] out]|] eqn:Hstep; [|discriminate].
  injection Hh as <-.
  destruct s;
    unfold contract_invariant, awaiting_speech, awaiting_listen, heard in Hinv;
    simpl in Hinv; split_invariant.
  all: step_cases Hstep; injection Hstep as <- <- <-.
  all: destruct turn; cbn;
    unfold contract_invariant, awaiting_speech, awaiting_listen; cbn.
  all: try congruence.
  all: try (split; [|intros ?; discriminate]).
  all: try (split; [eauto 8 | intros _; eapply first_utterance_heard; eassumption]).
  all: unfold heard; eauto 8.
Qed.

Lemma contract_invariant_press (k k' : Config) (turn : UserTurn) :
  contract_invariant k ->
  handle k CLICK (pending k) turn = Some k' ->
  contract_invariant k'.
Proof.
  unfold handle. destruct k as [s c q]; simpl.
  intros Hinv Hh.
  destruct s; simpl in Hh; injection Hh as <-;
    unfold contract_invariant in Hinv |- *; simpl in Hinv |- *;
    rewrite ?app_nil_r; try assumption.
  all: subst q; left; reflexivity.
Qed.

Lemma reachable_contract_invariant (k : Config) :
  reachable k -> contract_invariant k.
Proof.
  induction 1 as [|k k' m Hk IH Hm].
  - exact contract_invariant_start.
  - destruct m as [turn|turn]; simpl in Hm.
    + destruct (pending k) as [|e rest] eqn:Hq; [discriminate|].
      eapply contract_invariant_deliver; eauto.
    + eapply contract_invariant_press; eauto.
Qed.

Example play_happy_moves :
  play happy_moves start
  = Some {| state := ListenConfirm; context := happy_context;
            pending := [LISTEN_COMPLETE] |}
  /\ play (happy_moves ++ [Deliver Silent]) start
     = Some {| state := CheckConfirmation; context := happy_context;
               pending := [SPEAK_COMPLETE] |}.
Proof. split; vm_compute; reflexivity. Qed.

(** C10: in the machine run against the speech actor's contract, a
    [LISTEN_COMPLETE] that reaches [ListenConfirm] finds a non-empty
    [lastResult], so that entering [CheckConfirmation] does not throw;
    and whenever the machine is in [CheckConfirmation], [lastResult] is
    a non-empty list, its first utterance can be read, and the guards of
    [SPEAK_COMPLETE] evaluate. *)
Theorem CheckConfirmation_reads_a_result (k : Config) :
  reachable k ->
  (state k = ListenConfirm ->
   forall rest, pending k = LISTEN_COMPLETE :: rest ->
     heard (context k)
     /\ exists out,
          step ListenConfirm (context k) LISTEN_COMPLETE
          = Ok (CheckConfirmation, context k, out))
  /\ (state k = CheckConfirmation ->
      heard (context k)
      /\ (exists u, lastResult_utterance (context k) = Ok u)
      /\ exists out,
           step CheckConfirmation (context k) SPEAK_COMPLETE
           = Ok (Greeting, initial_context, out)).
Proof.
  intros Hk. apply reachable_contract_invariant in Hk.
  destruct k as [s c q]; simpl. split.
  - intros -> rest ->.
    destruct Hk as [Hq Hheard]; simpl in Hq, Hheard.
    assert (rest = []) as ->.
    { destruct Hq as [[value Hq]|[Hq|Hq]]; congruence. }
    specialize (Hheard eq_refl). split; [exact Hheard|].
    destruct Hheard as (h & rest & Hlr).
    destruct c as [lr p d y t]; simpl in Hlr; subst lr.
    destruct y as [[|]|]; eexists; reflexivity.
  - intros ->. destruct Hk as [_ Hheard]; simpl in Hheard.
    split; [exact Hheard|].
    destruct Hheard as (h & rest & Hlr). split.
    + exists (utterance h). unfold lastResult_utterance. rewrite Hlr.
      reflexivity.
    + eexists. apply (CheckConfirmation_SPEAK_COMPLETE c h rest Hlr).
Qed.


Lemma CheckConfirmation_reads_a_result_witness :
  let listening := {| state := ListenConfirm; context := happy_context;
                      pending := [LISTEN_COMPLETE] |} in
  let checking := {| state := CheckConfirmation; context := happy_context;
                     pending := [SPEAK_COMPLETE] |} in
  (reachable listening /\ reachable checking)
  /\ (heard happy_context
      /\ exists out,
           step ListenConfirm happy_context LISTEN_COMPLETE
           = Ok (CheckConfirmation, happy_context, out))
  /\ (heard happy_context
      /\ (exists u, lastResult_utterance happy_context = Ok u)
      /\ exists out,
           step CheckConfirmation happy_context SPEAK_COMPLETE
           = Ok (Greeting, initial_context, out)).
Proof.
  intros listening checking.
  assert (H1 : reachable listening).
  { apply (play_reachable happy_moves start); [constructor|].
    vm_compute. reflexivity. }
  assert (H2 : reachable checking).
  { apply (play_reachable (happy_moves ++ [Deliver Silent]) start);
      [constructor|]. vm_compute. reflexivity. }
  split; [split; assumption|]. split.
  - exact (proj1 (CheckConfirmation_reads_a_result listening H1)
             eq_refl [] eq_refl).
  - exact (proj2 (CheckConfirmation_reads_a_result checking H2) eq_refl).
Defined.

(** * Further properties of the code *)

(** ** The grammar table *)

Lemma forallb_elem_of {A : Type} (f : A -> bool) (l : list A) (x : A) :
  forallb f l = true -> x ∈ l -> f x = true.
Proof.
  induction l as [|y l IH]; simpl; intros Hall Hin.
  - inversion Hin.
  - apply andb_true_iff in Hall as [Hy Hl].
    apply elem_of_cons in Hin as [->|Hin]; [exact Hy | exact (IH Hl Hin)].
Qed.

(** A check that holds on every pair of the table holds on every
    lookup. *)
Lemma grammar_check (check : string -> Vocabulary.GrammarEntry -> bool) :
  forallb (fun ke => check ke.1 ke.2) (map_to_list Vocabulary.grammar) = true ->
  forall key e, Vocabulary.grammar !! key = Some e -> check key e = true.
Proof.
  intros Hall key e Hlook.
  apply elem_of_map_to_list in Hlook.
  exact (forallb_elem_of _ _ (key, e) Hall Hlook).
Qed.

Lemma grammar_keys_lower_case (key : string) (e : Vocabulary.GrammarEntry) :
  Vocabulary.grammar !! key = Some e -> Vocabulary.toLowerCase key = key.
Proof.
  intros H.
  assert (Hall : forallb (fun ke => (fun (k : string) (_ : Vocabulary.GrammarEntry) =>
            String.eqb (Vocabulary.toLowerCase k) k) ke.1 ke.2)
                   (map_to_list Vocabulary.grammar) = true)
    by (vm_compute; reflexivity).
  generalize (grammar_check _ Hall _ _ H). clear Hall.
  apply String.eqb_eq.
Qed.

Lemma grammar_entry_size (key : string) (e : Vocabulary.GrammarEntry) :
  Vocabulary.grammar !! key = Some e -> entry_size e = 1%nat.
Proof.
  intros H.
  assert (Hall : forallb (fun ke => (fun (_ : string) (e : Vocabulary.GrammarEntry) =>
            Nat.eqb (entry_size e) 1%nat) ke.1 ke.2)
                   (map_to_list Vocabulary.grammar) = true)
    by (vm_compute; reflexivity).
  generalize (grammar_check _ Hall _ _ H). clear Hall.
  apply Nat.eqb_eq.
Qed.

Lemma grammar_values_not_empty (key : string) (e : Vocabulary.GrammarEntry) :
  Vocabulary.grammar !! key = Some e ->
  Vocabulary.person e <> Some "" /\ Vocabulary.day e <> Some ""
  /\ Vocabulary.time e <> Some "".
Proof.
  intros H.
  assert (Hall : forallb (fun ke => (fun (_ : string) (e : Vocabulary.GrammarEntry) =>
            negb (bool_decide (Vocabulary.person e = Some ""))
            && negb (bool_decide (Vocabulary.day e = Some ""))
            && negb (bool_decide (Vocabulary.time e = Some ""))) ke.1 ke.2)
                   (map_to_list Vocabulary.grammar) = true)
    by (vm_compute; reflexivity).
  generalize (grammar_check _ Hall _ _ H). clear Hall.
  intros Hc.
  apply andb_true_iff in Hc as [Hc Ht].
  apply andb_true_iff in Hc as [Hp Hd].
  apply negb_true_iff, bool_decide_eq_false in Hp, Hd, Ht. auto.
Qed.

(** What a resolver reads: the entry under the lower-cased utterance, or
    nothing. *)
Lemma entry_or_empty_cases (key : string) :
  (exists e, Vocabulary.grammar !! key = Some e
             /\ Vocabulary.entry_or_empty key = e)
  \/ (Vocabulary.grammar !! key = None
      /\ Vocabulary.entry_or_empty key = Vocabulary.empty_entry).
Proof.
  unfold Vocabulary.entry_or_empty.
  destruct (Vocabulary.grammar !! key) as [e|]; [left; eauto | right; auto].
Qed.

(** X1: every key of the table is in lower case, so each entry is found
    again under its own key, and under that key in any mix of cases, by
    all the resolvers. *)
Theorem grammar_lookup_resolves (u key : string)
    (e : Vocabulary.GrammarEntry) :
  Vocabulary.grammar !! key = Some e ->
  Vocabulary.toLowerCase u = Vocabulary.toLowerCase key ->
  Vocabulary.isInGrammar u = true
  /\ getPerson u = Vocabulary.person e
  /\ getNumber u = Vocabulary.day e
  /\ getTime u = Vocabulary.time e
  /\ getFullDay u = Vocabulary.yesno e
  /\ getConfirm u = Vocabulary.yesno e.
Proof.
  intros Hlook Hu.
  rewrite (grammar_keys_lower_case key e Hlook) in Hu.
  unfold Vocabulary.isInGrammar, Vocabulary.has_property, getPerson,
    getNumber, getTime, getFullDay, getConfirm, Vocabulary.entry_or_empty.
  rewrite Hu, Hlook. split; [|repeat split].
  apply orb_true_iff. left. apply bool_decide_eq_true. eauto.
Qed.

Lemma grammar_lookup_resolves_witness :
  Vocabulary.isInGrammar "Of Course" = true
  /\ getPerson "Of Course" = None
  /\ getNumber "Of Course" = None
  /\ getTime "Of Course" = None
  /\ getFullDay "Of Course" = Some true
  /\ getConfirm "Of Course" = Some true.
Proof.
  apply (grammar_lookup_resolves "Of Course" "of course"
           (Vocabulary.yesno_entry true)); vm_compute; reflexivity.
Defined.

(** X2: an utterance resolves to at most one kind of slot value: when
    one of [getPerson], [getNumber], [getTime] and [getConfirm] returns
    a value, the other three return [undefined]. *)
Theorem resolvers_disjoint (u : string) :
  (is_Some (getPerson u) ->
   getNumber u = None /\ getTime u = None /\ getConfirm u = None)
  /\ (is_Some (getNumber u) ->
      getPerson u = None /\ getTime u = None /\ getConfirm u = None)
  /\ (is_Some (getTime u) ->
      getPerson u = None /\ getNumber u = None /\ getConfirm u = None)
  /\ (is_Some (getConfirm u) ->
      getPerson u = None /\ getNumber u = None /\ getTime u = None).
Proof.
  unfold getPerson, getNumber, getTime, getConfirm.
  destruct (entry_or_empty_cases (Vocabulary.toLowerCase u))
    as [(e & Hlook & ->)|[_ ->]].
  - apply grammar_entry_size in Hlook. unfold entry_size in Hlook.
    destruct e as [[p|] [d|] [t|] [b|]]; simpl in *;
      try discriminate Hlook;
      split_and!; intros [x Hx];
      first [discriminate Hx | split_and!; reflexivity].
  - simpl. split_and!; intros [x Hx]; discriminate Hx.
Qed.

Lemma resolvers_disjoint_witness :
  is_Some (getNumber "Friday")
  /\ (getPerson "Friday" = None /\ getTime "Friday" = None
      /\ getConfirm "Friday" = None).
Proof.
  assert (H : is_Some (getNumber "Friday"))
    by (exists "Friday"; vm_compute; reflexivity).
  split; [exact H|].
  exact (proj1 (proj2 (resolvers_disjoint "Friday")) H).
Defined.

(** What a resolver returns is never the empty string, which the
    conditionals of the RECOGNISED handlers would take for no value. *)
Lemma resolved_values_not_empty (u : string) :
  getPerson u <> Some "" /\ getNumber u <> Some "" /\ getTime u <> Some "".
Proof.
  unfold getPerson, getNumber, getTime.
  destruct (entry_or_empty_cases (Vocabulary.toLowerCase u))
    as [(e & Hlook & ->)|[_ ->]].
  - exact (grammar_values_not_empty _ e Hlook).
  - simpl. repeat split; discriminate.
Qed.

Lemma lower_case_prototype_keys (key : string) :
  key ∈ Vocabulary.Object_prototype_keys ->
  Vocabulary.toLowerCase key = key ->
  key = "constructor" \/ key = "__proto__".
Proof.
  unfold Vocabulary.Object_prototype_keys. intros Hin Hlow.
  repeat (apply elem_of_cons in Hin as [->|Hin];
          [first [left; reflexivity | right; reflexivity
                 | vm_compute in Hlow; discriminate Hlow]|]).
  inversion Hin.
Qed.

(** X3: [isInGrammar] holds exactly for the utterances that one of the
    resolvers gives a value for, and for those that lower-case to
    "constructor" or "__proto__", which the [in] operator finds on
    [Object.prototype]. *)
Theorem isInGrammar_characterised (u : string) :
  Vocabulary.isInGrammar u = true
  <-> (is_Some (getPerson u) \/ is_Some (getNumber u)
       \/ is_Some (getTime u) \/ is_Some (getConfirm u))
      \/ Vocabulary.toLowerCase u = "constructor"
      \/ Vocabulary.toLowerCase u = "__proto__".
Proof.
  unfold Vocabulary.isInGrammar, Vocabulary.has_property,
    getPerson, getNumber, getTime, getConfirm.
  set (key := Vocabulary.toLowerCase u).
  assert (Hkey : Vocabulary.toLowerCase key = key)
    by apply toLowerCase_idempotent.
  split.
  - intros H. apply orb_true_iff in H as [H|H];
      apply bool_decide_eq_true in H.
    + left. destruct H as [e Hlook].
      unfold Vocabulary.entry_or_empty. rewrite Hlook. simpl.
      apply grammar_entry_size in Hlook. unfold entry_size in Hlook.
      destruct e as [[p|] [d|] [t|] [b|]]; simpl in *;
        try discriminate Hlook; eauto 6.
    + right. exact (lower_case_prototype_keys key H Hkey).
  - intros [H|[H|H]].
    + apply orb_true_iff. left. apply bool_decide_eq_true.
      destruct (entry_or_empty_cases key) as [(e & Hlook & _)|[_ Hempty]];
        [eauto|].
      rewrite Hempty in H. simpl in H.
      destruct H as [[x Hx]|[[x Hx]|[[x Hx]|[x Hx]]]]; discriminate Hx.
    + rewrite H. vm_compute. reflexivity.
    + rewrite H. vm_compute. reflexivity.
Qed.

Lemma isInGrammar_characterised_witness :
  Vocabulary.isInGrammar "Constructor" = true
  /\ getPerson "Constructor" = None /\ getNumber "Constructor" = None
  /\ getTime "Constructor" = None /\ getConfirm "Constructor" = None.
Proof.
  split; [|vm_compute; auto].
  apply (proj2 (isInGrammar_characterised "Constructor")).
  right. left. vm_compute. reflexivity.
Defined.

(** ** Recognition in the Listen states *)

Lemma ToBoolean_resolved (x : option string) (v : string) :
  x = Some v -> x <> Some "" -> ToBoolean (str_or_undefined x) = true.
Proof.
  intros -> Hne. simpl. apply negb_true_iff, String.eqb_neq. congruence.
Qed.

(** X4: a [RECOGNISED] event in a Listen state keeps the machine there
    and sends nothing; it stores the hypotheses in [lastResult], and
    with them the slot of that state whenever the first utterance
    resolves to a value for it, [false] included.  [ListenConfirm]
    stores the hypotheses only. *)
Theorem recognised_value_is_stored (c : DMContext)
    (value : list ASRHypothesis) (u : string) :
  first_utterance value = Ok u ->
  let stored := assign_lastResult (Some value) c in
  step ListenPerson c (RECOGNISED value)
  = Ok (ListenPerson,
        match getPerson u with
        | Some p => assign_person (Some p) stored
        | None => stored
        end, [])
  /\ step ListenDay c (RECOGNISED value)
     = Ok (ListenDay,
           match getNumber u with
           | Some d => assign_day (Some d) stored
           | None => stored
           end, [])
  /\ step ListenFullDay c (RECOGNISED value)
     = Ok (ListenFullDay,
           match getConfirm u with
           | Some b => assign_yesno (Some b) stored
           | None => stored
           end, [])
  /\ step ListenTime c (RECOGNISED value)
     = Ok (ListenTime,
           match getTime u with
           | Some t => assign_time (Some t) stored
           | None => stored
           end, [])
  /\ step ListenConfirm c (RECOGNISED value) = Ok (ListenConfirm, stored, []).
Proof.
  intros Hu stored.
  destruct (resolved_values_not_empty u) as (Hp & Hd & Ht).
  split_and!; cbn -[getPerson getNumber getFullDay getTime getConfirm];
    rewrite Hu; cbn -[getPerson getNumber getFullDay getTime getConfirm].
  - destruct (getPerson u) as [p|] eqn:Hget; [|reflexivity].
    rewrite (ToBoolean_resolved _ p eq_refl Hp). reflexivity.
  - destruct (getNumber u) as [d|] eqn:Hget; [|reflexivity].
    rewrite (ToBoolean_resolved _ d eq_refl Hd). reflexivity.
  - destruct (getConfirm u) as [b|]; reflexivity.
  - destruct (getTime u) as [t|] eqn:Hget; [|reflexivity].
    rewrite (ToBoolean_resolved _ t eq_refl Ht). reflexivity.
  - destruct (getConfirm u) as [b|]; reflexivity.
Qed.

Lemma recognised_value_is_stored_witness :
  let c := {| lastResult := None; person := Some "Lou Reed"; day := None;
              yesno := None; time := None |} in
  let value := [hyp "NO WAY"; hyp "no way"] in
  let stored := assign_lastResult (Some value) c in
  step ListenPerson c (RECOGNISED value) = Ok (ListenPerson, stored, [])
  /\ step ListenDay c (RECOGNISED value) = Ok (ListenDay, stored, [])
  /\ step ListenFullDay c (RECOGNISED value)
     = Ok (ListenFullDay, assign_yesno (Some false) stored, [])
  /\ step ListenTime c (RECOGNISED value) = Ok (ListenTime, stored, [])
  /\ step ListenConfirm c (RECOGNISED value) = Ok (ListenConfirm, stored, []).
Proof.
  intros c value stored.
  exact (recognised_value_is_stored c value "NO WAY" eq_refl).
Defined.

(** ** Events without a handler *)

(** X5: an event that the current state has no handler for changes
    nothing and sends nothing: any event type outside the six of the
    table, [CLICK] outside [WaitToStart] and [Done], [ASRTTS_READY]
    outside [Prepare], the three listening events outside the Listen
    states, and [SPEAK_COMPLETE] outside the speaking states. *)
Theorem unhandled_events_ignored (s : State) (c : DMContext) :
  (forall type, step s c (OtherEvent type) = Ok (s, c, []))
  /\ (s <> WaitToStart -> s <> Done -> step s c CLICK = Ok (s, c, []))
  /\ (s <> Prepare -> step s c ASRTTS_READY = Ok (s, c, []))
  /\ (is_listen s = false ->
      (forall value, step s c (RECOGNISED value) = Ok (s, c, []))
      /\ step s c LISTEN_COMPLETE = Ok (s, c, [])
      /\ step s c ASR_NOINPUT = Ok (s, c, []))
  /\ (is_speak s = false -> step s c SPEAK_COMPLETE = Ok (s, c, [])).
Proof.
  split_and!.
  - intros type. destruct s; reflexivity.
  - destruct s; intros H1 H2; try reflexivity; congruence.
  - destruct s; intros H1; try reflexivity; congruence.
  - destruct s; intros H; try discriminate H; split_and!; reflexivity.
  - destruct s; intros H; try discriminate H; reflexivity.
Qed.

Lemma unhandled_events_ignored_witness :
  let c := {| lastResult := None; person := Some "Lou Reed"; day := None;
              yesno := None; time := None |} in
  step AskDay c CLICK = Ok (AskDay, c, [])
  /\ step AskDay c ASRTTS_READY = Ok (AskDay, c, [])
  /\ ((forall value, step AskDay c (RECOGNISED value) = Ok (AskDay, c, []))
      /\ step AskDay c LISTEN_COMPLETE = Ok (AskDay, c, [])
      /\ step AskDay c ASR_NOINPUT = Ok (AskDay, c, []))
  /\ step ListenDay c SPEAK_COMPLETE = Ok (ListenDay, c, []).
Proof.
  intros c.
  destruct (unhandled_events_ignored AskDay c) as (_ & H1 & H2 & H3 & _).
  destruct (unhandled_events_ignored ListenDay c) as (_ & _ & _ & _ & H4).
  split_and!.
  - apply H1; discriminate.
  - apply H2; discriminate.
  - apply H3; reflexivity.
  - apply H3; reflexivity.
  - apply H3; reflexivity.
  - apply H4; reflexivity.
Defined.

(** ** When an event makes the machine throw *)

(** X6: a step throws in three cases only: a [RECOGNISED] event without
    hypotheses in a Listen state, and [LISTEN_COMPLETE] in
    [ListenConfirm] or [SPEAK_COMPLETE] in [CheckConfirmation] while
    [lastResult] is [null] or empty. *)
Theorem step_throws_iff (s : State) (c : DMContext) (e : DMEvents) :
  step s c e = TypeError
  <-> (is_listen s = true /\ e = RECOGNISED [])
      \/ ((s = ListenConfirm /\ e = LISTEN_COMPLETE
           \/ s = CheckConfirmation /\ e = SPEAK_COMPLETE)
          /\ (lastResult c = None \/ lastResult c = Some [])).
Proof.
  split.
  - intros H.
    destruct s, e; step_cases H;
      repeat match goal with
             | Hr : lastResult_utterance _ = TypeError |- _ =>
                 unfold lastResult_utterance in Hr
             | Hr : match lastResult ?c with _ => _ end = _ |- _ =>
                 destruct (lastResult c) as [[|? ?]|] eqn:?;
                 try discriminate Hr
             | Hr : first_utterance ?v = TypeError |- _ =>
                 destruct v; [|discriminate Hr]
             end;
      auto 6.
  - intros [[Hs ->]|[[[-> ->]|[-> ->]] Hlr]].
    + destruct s; try discriminate Hs; reflexivity.
    + destruct c as [lr p d y t]; simpl in Hlr.
      destruct Hlr as [->| ->]; reflexivity.
    + destruct c as [lr p d y t]; simpl in Hlr.
      destruct Hlr as [->| ->]; reflexivity.
Qed.

Lemma step_throws_iff_witness :
  step ListenTime initial_context (RECOGNISED []) = TypeError
  /\ step ListenConfirm initial_context LISTEN_COMPLETE = TypeError
  /\ step CheckConfirmation initial_context SPEAK_COMPLETE = TypeError.
Proof.
  split_and!.
  - apply (proj2 (step_throws_iff ListenTime initial_context (RECOGNISED []))).
    left. split; reflexivity.
  - apply (proj2 (step_throws_iff ListenConfirm initial_context
                    LISTEN_COMPLETE)).
    right. split; [left; split; reflexivity | left; reflexivity].
  - apply (proj2 (step_throws_iff CheckConfirmation initial_context
                    SPEAK_COMPLETE)).
    right. split; [right; split; reflexivity | left; reflexivity].
Defined.

(** ** Runs *)

(** A property of state and context that every step keeps holds at the
    end of every run. *)
Lemma run_invariant (P : State -> DMContext -> Prop) :
  (forall s c e s' c' out,
      P s c -> step s c e = Ok (s', c', out) -> P s' c') ->
  forall es s c s' c' out,
    P s c -> run s c es = Ok (s', c', out) -> P s' c'.
Proof.
  intros Hstep es.
  induction es as [|e es IH]; simpl; intros s c s' c' out HP Hrun.
  - injection Hrun as <- <- _. exact HP.
  - destruct (step s c e) as [[[s1 c1] out1]|] eqn:H1; [|discriminate].
    simpl in Hrun.
    destruct (run s1 c1 es) as [[[s2 c2] out2]|] eqn:H2; [|discriminate].
    simpl in Hrun. injection Hrun as <- <- _.
    exact (IH _ _ _ _ _ (Hstep _ _ _ _ _ _ HP H1) H2).
Qed.

(** ** A sentence that is never spoken *)

Lemma step_does_not_apologise (s : State) (c : DMContext)
    (e : DMEvents) (s' : State) (c' : DMContext) (out : list Directive) :
  step s c e = Ok (s', c', out) ->
  SPEAK "I didn't understand the person's name." ∉ out.
Proof.
  intros H Hin.
  destruct s, e; step_cases H; injection H as <- <- <-;
    repeat (apply elem_of_cons in Hin as [Hin|Hin]);
    solve [inversion Hin | discriminate Hin | discriminate].
Qed.

(** X7: whatever state and context a run starts from and whatever
    events it is given, the machine never says "I didn't understand the
    person's name.": [CheckPerson] is entered from [ListenPerson] only,
    and only with a person. *)
Theorem never_apologises_for_person (es : list DMEvents) :
  forall (s : State) (c : DMContext) (s' : State) (c' : DMContext)
         (out : list Directive),
    run s c es = Ok (s', c', out) ->
    SPEAK "I didn't understand the person's name." ∉ out.
Proof.
  induction es as [|e es IH]; simpl; intros s c s' c' out Hrun.
  - injection Hrun as _ _ <-. inversion 1.
  - destruct (step s c e) as [[[s1 c1] out1]|] eqn:H1; [|discriminate].
    simpl in Hrun.
    destruct (run s1 c1 es) as [[[s2 c2] out2]|] eqn:H2; [|discriminate].
    simpl in Hrun. injection Hrun as _ _ <-.
    intros Hin. apply elem_of_app in Hin as [Hin|Hin].
    + exact (step_does_not_apologise _ _ _ _ _ _ H1 Hin).
    + exact (IH _ _ _ _ _ H2 Hin).
Qed.

Lemma never_apologises_for_person_witness :
  SPEAK "I didn't understand the person's name."
  ∉ [SPEAK "Who are you meeting with?"; LISTEN;
      SPEAK "Who are you meeting with?"].
Proof.
  apply (never_apologises_for_person
           [SPEAK_COMPLETE; SPEAK_COMPLETE; RECOGNISED [hyp "banana"];
            LISTEN_COMPLETE]
           Greeting initial_context AskPerson
           (assign_lastResult (Some [hyp "banana"]) initial_context)).
  vm_compute. reflexivity.
Defined.

(** ** Slots by stage *)

Lemma loose_neq_null_Some (x : option string) :
  loose_neq_null (str_or_null x) = true -> is_Some x.
Proof. destruct x; [eauto | discriminate]. Qed.

Lemma ToBoolean_Some (x : option string) :
  ToBoolean (str_or_null x) = true -> is_Some x.
Proof. destruct x; [eauto | discriminate]. Qed.

Lemma strict_eq_bool_Some (x : option bool) (b : bool) :
  strict_eq_bool (bool_or_null x) b = true -> x = Some b.
Proof. destruct x as [[|]|], b; simpl; congruence. Qed.

Lemma step_slots_filled (s : State) (c : DMContext) (e : DMEvents)
    (s' : State) (c' : DMContext) (out : list Directive) :
  slots_filled s c -> step s c e = Ok (s', c', out) -> slots_filled s' c'.
Proof.
  intros Hs H.
  destruct c as [lr p d y t].
  destruct s, e; simpl in Hs; try contradiction;
    step_cases H; injection H as <- <- <-;
    cbn [slots_filled person day yesno time lastResult assign_lastResult
         assign_person assign_day assign_yesno assign_time] in Hs |- *;
    repeat match goal with
           | G : loose_neq_null (str_or_null _) = true |- _ =>
               apply loose_neq_null_Some in G
           | G : ToBoolean (str_or_null _) = true |- _ =>
               apply ToBoolean_Some in G
           | G : strict_eq_bool (bool_or_null _) _ = true |- _ =>
               apply strict_eq_bool_Some in G
           end;
    try (exact I); try discriminate; intuition auto.
Qed.

Lemma run_keeps_slots_filled (es : list DMEvents) (s : State)
    (c : DMContext) (out : list Directive) :
  run Prepare initial_context es = Ok (s, c, out) -> slots_filled s c.
Proof.
  apply (run_invariant slots_filled step_slots_filled). exact I.
Qed.

(** X8: in every run from the start of the machine, whatever the events,
    the context holds the slots that the guards on the way have tested:
    a person from [CheckPerson] on, a day from [AskFullDay] on, [yesno]
    [false] in the three time states, and from [ConfirmAppointment] on
    either [yesno] [true] or [yesno] [false] with a time. *)
Theorem run_slots_filled (es : list DMEvents) (s : State) (c : DMContext)
    (out : list Directive) :
  run Prepare initial_context es = Ok (s, c, out) -> slots_filled s c.
Proof. exact (run_keeps_slots_filled es s c out). Qed.

Lemma run_slots_filled_witness :
  is_Some (Some "Vladislav Maraev") /\ is_Some (Some "Monday")
  /\ (Some false = Some true
      \/ (Some false = Some false /\ is_Some (Some "14:00"))).
Proof.
  apply (run_slots_filled (ASRTTS_READY :: CLICK :: happy_path)
           CheckConfirmation happy_context
           (SPEAK "Hi, let's create an appointment"
            :: [SPEAK "Who are you meeting with?"; LISTEN;
                SPEAK "You will meet Vladislav Maraev.";
                SPEAK "Which day do you want the meeting?"; LISTEN;
                SPEAK "The day will be Monday.";
                SPEAK "Will it take the whole day?"; LISTEN;
                SPEAK "Ok, the meeting will not be the whole day.";
                SPEAK "What time is your meeting?"; LISTEN;
                SPEAK "You will meet at 14:00.";
                SPEAK "Do you want me to create an appointment with Vladislav Maraev on Monday at 14:00?";
                LISTEN;
                SPEAK "Your appointment has been created!"])).
  vm_compute. reflexivity.
Defined.

(** X9: no run from the start of the machine is ever in [Done] or in
    "new state 1": no transition of the table targets them. *)
Theorem Done_and_NewState1_never_entered (es : list DMEvents) (s : State)
    (c : DMContext) (out : list Directive) :
  run Prepare initial_context es = Ok (s, c, out) ->
  s <> Done /\ s <> NewState1.
Proof.
  intros Hrun. apply run_keeps_slots_filled in Hrun.
  split; intros ->; exact Hrun.
Qed.

Lemma Done_and_NewState1_never_entered_witness :
  Greeting <> Done /\ Greeting <> NewState1.
Proof.
  apply (Done_and_NewState1_never_entered [ASRTTS_READY; CLICK; CLICK]
           Greeting initial_context
           [SPEAK "Hi, let's create an appointment"]).
  vm_compute. reflexivity.
Defined.

(** ** The question of [ConfirmAppointment] *)

Lemma string_append_assoc (a b c : string) : (a +:+ b) +:+ c = a +:+ (b +:+ c).
Proof.
  induction a as [|x a IH]; [reflexivity|].
  change (String x ((a +:+ b) +:+ c) = String x (a +:+ (b +:+ c))).
  rewrite IH. reflexivity.
Qed.

(** X10: in every run from the start of the machine, a context in which
    the machine is in [ConfirmAppointment] has a person and a day, and
    the question asked for it names them and ends either "for the whole
    day?" or, with [yesno] [false] and a time, "at" that time; it never
    contains the text "null". *)
Theorem ConfirmAppointment_question_complete (es : list DMEvents)
    (c : DMContext) (out : list Directive) :
  run Prepare initial_context es = Ok (ConfirmAppointment, c, out) ->
  exists p d,
    person c = Some p /\ day c = Some d
    /\ ((yesno c = Some true
         /\ entry ConfirmAppointment c
            = Ok [SPEAK ("Do you want me to create an appointment with "
                         +:+ p +:+ " on " +:+ d +:+ " for the whole day?")])
        \/ (exists t,
              yesno c = Some false /\ time c = Some t
              /\ entry ConfirmAppointment c
                 = Ok [SPEAK ("Do you want me to create an appointment with "
                              +:+ p +:+ " on " +:+ d +:+ " at " +:+ t
                              +:+ "?")])).
Proof.
  intros Hrun. apply run_keeps_slots_filled in Hrun.
  destruct c as [lr p d y t]; simpl in Hrun.
  destruct Hrun as ([p' ->] & [d' ->] & Hy).
  exists p', d'. split; [reflexivity|]. split; [reflexivity|].
  destruct Hy as [->|[-> [t' ->]]]; [left | right; exists t'];
    split_and?; try reflexivity;
    cbn [entry person day yesno time template bool_or_null strict_eq_bool
         Bool.eqb];
    rewrite !string_append_assoc; reflexivity.
Qed.

Lemma ConfirmAppointment_question_complete_witness :
  let c := {| lastResult := Some [hyp "yep"]; person := Some "Lou Reed";
              day := Some "Friday"; yesno := Some true; time := None |} in
  exists p d,
    person c = Some p /\ day c = Some d
    /\ ((yesno c = Some true
         /\ entry ConfirmAppointment c
            = Ok [SPEAK ("Do you want me to create an appointment with "
                         +:+ p +:+ " on " +:+ d +:+ " for the whole day?")])
        \/ (exists t,
              yesno c = Some false /\ time c = Some t
              /\ entry ConfirmAppointment c
                 = Ok [SPEAK ("Do you want me to create an appointment with "
                              +:+ p +:+ " on " +:+ d +:+ " at " +:+ t
                              +:+ "?")])).
Proof.
  intros c.
  apply (ConfirmAppointment_question_complete
           [ASRTTS_READY; CLICK; SPEAK_COMPLETE; SPEAK_COMPLETE;
            RECOGNISED [hyp "Lou"]; LISTEN_COMPLETE; SPEAK_COMPLETE;
            SPEAK_COMPLETE; RECOGNISED [hyp "Friday"]; LISTEN_COMPLETE;
            SPEAK_COMPLETE; SPEAK_COMPLETE; RECOGNISED [hyp "yep"];
            LISTEN_COMPLETE; SPEAK_COMPLETE]
           c
           [SPEAK "Hi, let's create an appointment";
            SPEAK "Who are you meeting with?"; LISTEN;
            SPEAK "You will meet Lou Reed.";
            SPEAK "Which day do you want the meeting?"; LISTEN;
            SPEAK "The day will be Friday.";
            SPEAK "Will it take the whole day?"; LISTEN;
            SPEAK "Ok, you will take the whole day.";
            SPEAK "Do you want me to create an appointment with Lou Reed on Friday for the whole day?"]).
  vm_compute. reflexivity.
Defined.

(** ** Where slot values come from *)

Lemma step_from_grammar (s : State) (c : DMContext) (e : DMEvents)
    (s' : State) (c' : DMContext) (out : list Directive) :
  from_grammar c -> step s c e = Ok (s', c', out) -> from_grammar c'.
Proof.
  intros (Hp & Hd & Hy & Ht) H.
  destruct (step_context_change _ _ _ _ _ _ H)
    as [ | | | value u p _ _ _ Hget | value u d _ _ _ Hget
       | value u b _ _ _ Hget | value u t _ _ _ Hget | ];
    unfold from_grammar; simpl; split_and!; try assumption;
    try discriminate; intros x [= <-]; eauto.
Qed.

(** X11: in every run that starts with all slots absent, a slot that is
    set holds a value of the grammar: there is an utterance that the
    resolver of that slot maps to it. *)
Theorem run_from_grammar (es : list DMEvents) (s0 s : State)
    (c : DMContext) (out : list Directive) :
  run s0 initial_context es = Ok (s, c, out) -> from_grammar c.
Proof.
  apply (run_invariant (fun _ => from_grammar)
           (fun s c e s' c' out => step_from_grammar s c e s' c' out)).
  unfold from_grammar; simpl; split_and!; discriminate.
Qed.

Lemma run_from_grammar_witness :
  from_grammar
    {| lastResult := Some [hyp "NOPE"]; person := None; day := None;
       yesno := Some false; time := None |}.
Proof.
  apply (run_from_grammar [RECOGNISED [hyp "NOPE"]; CLICK]
           ListenFullDay ListenFullDay _ []).
  vm_compute. reflexivity.
Defined.

(** ** One turn of each slot *)

(** X12: an utterance that does not resolve to the slot being asked for
    brings the machine back to the Ask state of that slot, with the slot
    still absent and only [lastResult] changed.  For the person this is
    immediate; for the day and the time the machine first says that it
    did not understand; for the whole-day question it first says "Ok,
    the meeting will not be the whole day." *)
Theorem unresolved_utterance_reprompts (c : DMContext) (h : ASRHypothesis)
    (rest : list ASRHypothesis) :
  let value := h :: rest in
  let stored := assign_lastResult (Some value) c in
  (person c = None -> getPerson (utterance h) = None ->
   run AskPerson c [SPEAK_COMPLETE; RECOGNISED value; LISTEN_COMPLETE]
   = Ok (AskPerson, stored, [LISTEN; SPEAK "Who are you meeting with?"]))
  /\ (day c = None -> getNumber (utterance h) = None ->
      run AskDay c
        [SPEAK_COMPLETE; RECOGNISED value; LISTEN_COMPLETE; SPEAK_COMPLETE]
      = Ok (AskDay, stored,
            [LISTEN; SPEAK "I did't understand the day";
             SPEAK "Which day do you want the meeting?"]))
  /\ (yesno c = None -> getConfirm (utterance h) = None ->
      run AskFullDay c
        [SPEAK_COMPLETE; RECOGNISED value; LISTEN_COMPLETE; SPEAK_COMPLETE]
      = Ok (AskFullDay, stored,
            [LISTEN; SPEAK "Ok, the meeting will not be the whole day.";
             SPEAK "Will it take the whole day?"]))
  /\ (time c = None -> getTime (utterance h) = None ->
      run AskTime c
        [SPEAK_COMPLETE; RECOGNISED value; LISTEN_COMPLETE; SPEAK_COMPLETE]
      = Ok (AskTime, stored,
            [LISTEN; SPEAK "I did not understand the time.";
             SPEAK "What time is your meeting?"])).
Proof.
  intros value stored. destruct c as [lr p d y t].
  split_and!; cbn [person day yesno time]; intros -> Hget; eval_run;
    rewrite Hget; reflexivity.
Qed.

Lemma unresolved_utterance_reprompts_witness :
  let c := {| lastResult := None; person := Some "Lou Reed";
              day := Some "Friday"; yesno := None; time := None |} in
  let value := [hyp "maybe"] in
  let stored := assign_lastResult (Some value) c in
  run AskFullDay c
    [SPEAK_COMPLETE; RECOGNISED value; LISTEN_COMPLETE; SPEAK_COMPLETE]
  = Ok (AskFullDay, stored,
        [LISTEN; SPEAK "Ok, the meeting will not be the whole day.";
         SPEAK "Will it take the whole day?"])
  /\ run AskTime c
       [SPEAK_COMPLETE; RECOGNISED value; LISTEN_COMPLETE; SPEAK_COMPLETE]
     = Ok (AskTime, stored,
           [LISTEN; SPEAK "I did not understand the time.";
            SPEAK "What time is your meeting?"]).
Proof.
  intros c value stored.
  destruct (unresolved_utterance_reprompts c (hyp "maybe") [])
    as (_ & _ & Hy & Ht).
  split; [apply Hy | apply Ht]; vm_compute; reflexivity.
Defined.

(** X13: silence during a listen brings the machine back to the Ask
    state of the slot, with [lastResult] [null] and the slots as they
    were: at once for the whole-day question and the confirmation, where
    the [LISTEN_COMPLETE] that follows is ignored; on [LISTEN_COMPLETE]
    for an absent person; and after the sentence of the Check state for
    an absent day or time. *)
Theorem no_input_reprompts (c : DMContext) :
  let cleared := assign_lastResult None c in
  (person c = None ->
   run AskPerson c [SPEAK_COMPLETE; ASR_NOINPUT; LISTEN_COMPLETE]
   = Ok (AskPerson, cleared, [LISTEN; SPEAK "Who are you meeting with?"]))
  /\ (day c = None ->
      run AskDay c
        [SPEAK_COMPLETE; ASR_NOINPUT; LISTEN_COMPLETE; SPEAK_COMPLETE]
      = Ok (AskDay, cleared,
            [LISTEN; SPEAK "I did't understand the day";
             SPEAK "Which day do you want the meeting?"]))
  /\ run AskFullDay c [SPEAK_COMPLETE; ASR_NOINPUT; LISTEN_COMPLETE]
     = Ok (AskFullDay, cleared, [LISTEN; SPEAK "Will it take the whole day?"])
  /\ (time c = None ->
      run AskTime c
        [SPEAK_COMPLETE; ASR_NOINPUT; LISTEN_COMPLETE; SPEAK_COMPLETE]
      = Ok (AskTime, cleared,
            [LISTEN; SPEAK "I did not understand the time.";
             SPEAK "What time is your meeting?"]))
  /\ (forall question,
        entry ConfirmAppointment c = Ok question ->
        run ConfirmAppointment c
          [SPEAK_COMPLETE; ASR_NOINPUT; LISTEN_COMPLETE]
        = Ok (ConfirmAppointment, cleared, LISTEN :: question)).
Proof.
  intros cleared. destruct c as [lr p d y t].
  split_and!; simpl; try (intros ->); try reflexivity.
  intros question [= <-]. reflexivity.
Qed.

Lemma no_input_reprompts_witness :
  let c := {| lastResult := Some [hyp "no"]; person := Some "Lou Reed";
              day := Some "Friday"; yesno := Some false; time := None |} in
  let c2 := {| lastResult := Some [hyp "yes"]; person := Some "Lou Reed";
               day := Some "Friday"; yesno := Some true; time := None |} in
  run AskTime c
    [SPEAK_COMPLETE; ASR_NOINPUT; LISTEN_COMPLETE; SPEAK_COMPLETE]
  = Ok (AskTime, assign_lastResult None c,
        [LISTEN; SPEAK "I did not understand the time.";
         SPEAK "What time is your meeting?"])
  /\ run ConfirmAppointment c2
       [SPEAK_COMPLETE; ASR_NOINPUT; LISTEN_COMPLETE]
     = Ok (ConfirmAppointment, assign_lastResult None c2,
           [LISTEN;
            SPEAK "Do you want me to create an appointment with Lou Reed on Friday for the whole day?"]).
Proof.
  intros c c2.
  destruct (no_input_reprompts c) as (_ & _ & _ & Ht & _).
  destruct (no_input_reprompts c2) as (_ & _ & _ & _ & Hc).
  split; [apply Ht | apply Hc]; vm_compute; reflexivity.
Defined.

(** X14: whatever the user answers to the confirmation question, the
    machine says one of three sentences, by what the first utterance
    resolves to, then greets again with every context field [null]; the
    answer changes the sentence and nothing else. *)
Theorem confirmation_outcome (c : DMContext) (h : ASRHypothesis)
    (rest : list ASRHypothesis) :
  run ListenConfirm c
    [RECOGNISED (h :: rest); LISTEN_COMPLETE; SPEAK_COMPLETE]
  = Ok (Greeting, initial_context,
        [SPEAK (confirmation_sentence (getConfirm (utterance h)));
         SPEAK "Hi, let's create an appointment"]).
Proof.
  destruct c as [lr p d y t].
  destruct (getConfirm (utterance h)) as [[|]|] eqn:Hget;
    repeat (progress (eval_run; rewrite ?Hget)); reflexivity.
Qed.

(** X15: an utterance that resolves to the slot being asked for is
    stored and confirmed, and the machine moves on: from the person to
    the day, from the day to the whole-day question, from there to the
    confirmation question on yes and to the time on no, and from the
    time to the confirmation question. *)
Theorem resolved_utterance_advances (c : DMContext) (h : ASRHypothesis)
    (rest : list ASRHypothesis) :
  let value := h :: rest in
  let stored := assign_lastResult (Some value) c in
  let turn := [SPEAK_COMPLETE; RECOGNISED value; LISTEN_COMPLETE;
               SPEAK_COMPLETE] in
  (forall p, getPerson (utterance h) = Some p ->
     run AskPerson c turn
     = Ok (AskDay, assign_person (Some p) stored,
           [LISTEN; SPEAK ("You will meet " +:+ p +:+ ".");
            SPEAK "Which day do you want the meeting?"]))
  /\ (forall d, getNumber (utterance h) = Some d ->
        run AskDay c turn
        = Ok (AskFullDay, assign_day (Some d) stored,
              [LISTEN; SPEAK ("The day will be " +:+ d +:+ ".");
               SPEAK "Will it take the whole day?"]))
  /\ (getConfirm (utterance h) = Some true ->
      forall question,
        entry ConfirmAppointment (assign_yesno (Some true) stored)
        = Ok question ->
        run AskFullDay c turn
        = Ok (ConfirmAppointment, assign_yesno (Some true) stored,
              LISTEN :: SPEAK "Ok, you will take the whole day." :: question))
  /\ (getConfirm (utterance h) = Some false ->
      run AskFullDay c turn
      = Ok (AskTime, assign_yesno (Some false) stored,
            [LISTEN; SPEAK "Ok, the meeting will not be the whole day.";
             SPEAK "What time is your meeting?"]))
  /\ (forall t, getTime (utterance h) = Some t ->
      forall question,
        entry ConfirmAppointment (assign_time (Some t) stored)
        = Ok question ->
        run AskTime c turn
        = Ok (ConfirmAppointment, assign_time (Some t) stored,
              LISTEN :: SPEAK ("You will meet at " +:+ t +:+ ".")
                :: question)).
Proof.
  intros value stored turn. destruct c as [lr p d y t].
  destruct (resolved_values_not_empty (utterance h)) as (Hp & Hd & Ht).
  split_and!.
  - intros x Hget. rewrite Hget in Hp.
    assert (Hne : (x =? "") = false) by (apply String.eqb_neq; congruence).
    repeat (progress (eval_run; rewrite ?Hget, ?Hne)). reflexivity.
  - intros x Hget. rewrite Hget in Hd.
    assert (Hne : (x =? "") = false) by (apply String.eqb_neq; congruence).
    repeat (progress (eval_run; rewrite ?Hget, ?Hne)). reflexivity.
  - intros Hget question [= <-].
    repeat (progress (eval_run; rewrite ?Hget)). reflexivity.
  - intros Hget.
    repeat (progress (eval_run; rewrite ?Hget)). reflexivity.
  - intros x Hget question [= <-]. rewrite Hget in Ht.
    assert (Hne : (x =? "") = false) by (apply String.eqb_neq; congruence).
    repeat (progress (eval_run; rewrite ?Hget, ?Hne)). reflexivity.
Qed.

Lemma resolved_utterance_advances_witness :
  let c := {| lastResult := None; person := Some "Lou Reed";
              day := Some "Friday"; yesno := None; time := None |} in
  let value := [hyp "Sure"] in
  let stored := assign_lastResult (Some value) c in
  run AskFullDay c
    [SPEAK_COMPLETE; RECOGNISED value; LISTEN_COMPLETE; SPEAK_COMPLETE]
  = Ok (ConfirmAppointment, assign_yesno (Some true) stored,
        [LISTEN; SPEAK "Ok, you will take the whole day.";
         SPEAK "Do you want me to create an appointment with Lou Reed on Friday for the whole day?"]).
Proof.
  intros c value stored.
  destruct (resolved_utterance_advances c (hyp "Sure") [])
    as (_ & _ & Hyes & _).
  apply Hyes; vm_compute; reflexivity.
Defined.

(** ** Progress of the machine with its speech actor *)

Lemma reachable_slots_filled (k : Config) :
  reachable k -> slots_filled (state k) (context k).
Proof.
  induction 1 as [|k k' m Hk IH Hm]; [exact I|].
  assert (Hhandle : forall e rest turn,
             handle k e rest turn = Some k' ->
             slots_filled (state k') (context k')).
  { intros e rest turn Hh. unfold handle in Hh.
    destruct (step (state k) (context k) e) as [[[s' c'] out]|] eqn:Hstep;
      [|discriminate].
    injection Hh as <-. simpl.
    exact (step_slots_filled _ _ _ _ _ _ IH Hstep). }
  destruct m as [turn|turn]; simpl in Hm.
  - destruct (pending k) as [|e rest]; [discriminate|]. eauto.
  - eauto.
Qed.

(** X16: run against the contract of the speech actor, the machine
    handles every pending event without throwing, except a [RECOGNISED]
    event that carries no hypothesis; a [CLICK] is handled without
    throwing in every configuration. *)
Theorem reachable_never_throws (k : Config) (turn : UserTurn) :
  is_Some (move (Press turn) k)
  /\ (reachable k ->
      forall e rest,
        pending k = e :: rest -> e <> RECOGNISED [] ->
        is_Some (move (Deliver turn) k)).
Proof.
  split.
  - destruct k as [s c q]. unfold move, handle; simpl.
    destruct s; simpl; eauto.
  - intros Hk e rest Hq Hne.
    apply reachable_contract_invariant in Hk.
    destruct k as [s c q]; simpl in Hq; subst q.
    unfold move, handle; simpl.
    destruct c as [lr p d y t].
    destruct s;
      unfold contract_invariant, awaiting_speech, awaiting_listen, heard
        in Hk;
      simpl in Hk; split_invariant; subst;
      try match goal with
          | |- context [RECOGNISED ?v] =>
              destruct v as [|? ?]; [congruence|]
          end;
      goal_cases; eauto; try discriminate.
Qed.

Lemma reachable_never_throws_witness :
  is_Some (move (Press Silent)
             {| state := CheckConfirmation; context := happy_context;
                pending := [SPEAK_COMPLETE] |})
  /\ is_Some (move (Deliver Silent)
                {| state := CheckConfirmation; context := happy_context;
                   pending := [SPEAK_COMPLETE] |}).
Proof.
  set (k := {| state := CheckConfirmation; context := happy_context;
               pending := [SPEAK_COMPLETE] |}).
  assert (Hk : reachable k).
  { apply (play_reachable (happy_moves ++ [Deliver Silent]) start);
      [constructor|]. vm_compute. reflexivity. }
  destruct (reachable_never_throws k Silent) as [Hpress Hdeliver].
  split; [exact Hpress|].
  apply (Hdeliver Hk SPEAK_COMPLETE []); [reflexivity | discriminate].
Defined.

(** X17: run against the contract of the speech actor, the machine never
    has more than two events pending, and it has none pending only in
    [WaitToStart], where a [CLICK] starts the dialogue: it cannot come
    to rest anywhere else. *)
Theorem reachable_pending (k : Config) :
  reachable k ->
  (length (pending k) <= 2)%nat
  /\ (pending k = [] ->
      state k = WaitToStart
      /\ forall turn, exists c,
           move (Press turn) k
           = Some {| state := Greeting; context := c;
                     pending := [SPEAK_COMPLETE] |}).
Proof.
  intros Hk.
  pose proof (reachable_slots_filled k Hk) as Hstage.
  apply reachable_contract_invariant in Hk.
  destruct k as [s c q]; simpl in *.
  destruct s;
    unfold contract_invariant, awaiting_speech, awaiting_listen in Hk;
    simpl in Hk, Hstage; try contradiction; split_invariant; subst; simpl;
    (split; [lia | intros Hq; try discriminate Hq]).
  split; [reflexivity|]. intros turn. exists c. reflexivity.
Qed.

Lemma reachable_pending_witness :
  let k := {| state := WaitToStart; context := initial_context;
              pending := [] |} in
  (length (pending k) <= 2)%nat
  /\ (state k = WaitToStart
      /\ forall turn, exists c,
           move (Press turn) k
           = Some {| state := Greeting; context := c;
                     pending := [SPEAK_COMPLETE] |}).
Proof.
  intros k.
  assert (Hk : reachable k).
  { apply (play_reachable [Deliver Silent] start); [constructor|].
    vm_compute. reflexivity. }
  destruct (reachable_pending k Hk) as [Hlen Hidle].
  split; [exact Hlen | exact (Hidle eq_refl)].
Defined.
